(** * Diabetes prediction service: the prediction API and the form UI

    A shallow embedding of [api.py] (the FastAPI application) and of the
    form handler of [dl_app.py], with the properties of the service's
    specification stated and proved over it.

    Numbers.  A finite floating-point number is modelled by the
    rational it denotes ([Q]), and the arithmetic that rounds is modelled
    with its rounding: [Float.float32] and [Float.float64] round a
    rational to the nearest number of the binary32 and binary64 formats,
    ties to even.  The probabilities the model returns are NumPy float32
    scalars, so [1 - p] is the float32 difference; a Python float literal
    and a number decoded from a JSON body are binary64 numbers.
    Comparisons are exact.  NaN is outside the model, and an infinity only
    appears as the result of decoding a JSON number too large for
    binary64.

    Effects.  The only effect of a request handler is the call of
    [model.predict]; handlers are written in a small state-and-exception
    monad whose state is the log of the matrices handed to the model. *)

From Stdlib Require Import ZArith QArith Qminmax Qround Qpower.
From Stdlib Require Import String Ascii List Lia Lqa Bool.
From stdpp Require Import base option list strings pretty gmap.
Import ListNotations.

Local Open Scope string_scope.
Local Open Scope Z_scope.

(** ** Binary floating-point formats

    A format is given by its precision [prec] (the number of significant
    bits) and the exponent [emin] of its smallest normal number; below
    [2 ^ emin] the spacing stays that of the subnormal numbers.  The
    exponent range is not bounded above: overflow is tested where a
    number is decoded. *)

Module Float.

(** Rounding to the nearest integer, ties to the even one. *)
Definition rne (x : Q) : Z :=
  let f := Qfloor x in
  match (x - inject_Z f ?= 1 # 2)%Q with
  | Lt => f
  | Gt => f + 1
  | Eq => if Z.even f then f else f + 1
  end.

Definition pow2 (k : Z) : Q := (2 ^ k)%Q.

(** For [x > 0], the exponent [e] with [2 ^ e <= x < 2 ^ (e + 1)]. *)
Definition ilog2 (x : Q) : Z :=
  let k := Z.log2 (Qnum x) - Z.log2 (Zpos (Qden x)) in
  if Qle_bool (pow2 k) x then k else k - 1.

(** Rounding of a positive number: to the nearest multiple of the
    spacing [2 ^ s] of the format around it. *)
Definition round_pos (prec emin : Z) (x : Q) : Q :=
  let s := Z.max (ilog2 x) emin - (prec - 1) in
  (inject_Z (rne (x / pow2 s)) * pow2 s)%Q.

(** Rounding to nearest, ties to even; the result is a reduced
    fraction. *)
Definition round (prec emin : Z) (x : Q) : Q :=
  let x := Qred x in
  Qred match (x ?= 0)%Q with
       | Eq => 0
       | Gt => round_pos prec emin x
       | Lt => - round_pos prec emin (- x)
       end%Q.

(** binary32, NumPy's [float32]. *)
Definition float32 : Q -> Q := round 24 (-126).

(** binary64, Python's [float]. *)
Definition float64 : Q -> Q := round 53 (-1022).

(** The number is one of the format: rounding leaves it as it is. *)
Definition is_float32 (x : Q) : Prop := (float32 x == x)%Q.

Definition is_float64 (x : Q) : Prop := (float64 x == x)%Q.

End Float.

Arguments Float.round : simpl never.
Arguments Float.float32 : simpl never.
Arguments Float.float64 : simpl never.

(** ** Python values used by the service *)

Module Py.

(** A Python float literal: the binary64 number nearest to the decimal
    written. *)
Definition float_literal (written : Q) : Q := Float.float64 written.

(** [a - b] where an operand is a NumPy float32 scalar and the other a
    float32 scalar or a Python integer: the float32 difference. *)
Definition sub32 (a b : Q) : Q := Float.float32 (a - b).

Arguments float_literal : simpl never.

(** [max(a, b)]: the first argument unless the second is strictly larger. *)
Definition max (a b : Q) : Q := if Qlt_le_dec a b then b else a.

(** [a > b] and [a >= b] on numbers. *)
Definition gt (a b : Q) : bool := if Qlt_le_dec b a then true else false.

Definition ge (a b : Q) : bool := if Qlt_le_dec a b then false else true.

(** [int(b)] of a boolean. *)
Definition int_of_bool (b : bool) : Z := if b then 1 else 0.

End Py.

(** ** The per-row rule: label and confidence tier

    [api.py], lines 119-128 (single) and 178-186 (batch); [dl_app.py],
    line 42. *)

(** The three strings the code assigns to [confidence]. *)
Inductive Tier := Low | Medium | High.

Definition tier_str (t : Tier) : string :=
  match t with Low => "Low" | Medium => "Medium" | High => "High" end.

(** Rank of a tier in the ordering Low < Medium < High. *)
Definition tier_rank (t : Tier) : nat :=
  match t with Low => 0 | Medium => 1 | High => 2 end.

Definition tier_le (a b : Tier) : Prop := (tier_rank a <= tier_rank b)%nat.

(** [int(prediction_proba > 0.5)] *)
Definition prediction_of (proba : Q) : Z :=
  Py.int_of_bool (Py.gt proba (1 # 2)).

(** [max(prediction_proba, 1 - prediction_proba)] *)
Definition confidence_prob_of (proba : Q) : Q :=
  Py.max proba (Py.sub32 1 proba).

(** The [if]/[elif]/[else] chain on [confidence_prob]. *)
Definition tier_of_confidence_prob (confidence_prob : Q) : Tier :=
  if Py.ge confidence_prob (8 # 10) then High
  else if Py.ge confidence_prob (6 # 10) then Medium
  else Low.

Definition confidence_of (proba : Q) : string :=
  tier_str (tier_of_confidence_prob (confidence_prob_of proba)).

(** ** Exceptions

    The part of Python's exception hierarchy the service meets, with
    user-defined subclasses, and the two kinds of raised value: an ordinary
    exception ([str(e)] is its message) and FastAPI's [HTTPException]. *)

Inductive PyClass :=
| BaseException
| Exception
| ValueError
| LookupError
| IndexError
| RuntimeError
| OSError
| FileNotFoundError
| KeyboardInterrupt
| SystemExit
| HTTPExceptionClass
| Subclass (name : string) (parent : PyClass).

#[global] Instance PyClass_eq_dec : EqDecision PyClass.
Proof. solve_decision. Defined.

(** Method resolution order (single inheritance): the class and its
    ancestors. *)
Fixpoint mro (c : PyClass) : list PyClass :=
  match c with
  | BaseException => [BaseException]
  | Exception => [Exception; BaseException]
  | ValueError => [ValueError; Exception; BaseException]
  | LookupError => [LookupError; Exception; BaseException]
  | IndexError => [IndexError; LookupError; Exception; BaseException]
  | RuntimeError => [RuntimeError; Exception; BaseException]
  | OSError => [OSError; Exception; BaseException]
  | FileNotFoundError => [FileNotFoundError; OSError; Exception; BaseException]
  | KeyboardInterrupt => [KeyboardInterrupt; BaseException]
  | SystemExit => [SystemExit; BaseException]
  | HTTPExceptionClass => [HTTPExceptionClass; Exception; BaseException]
  | Subclass name parent => Subclass name parent :: mro parent
  end.

Definition issubclass (c k : PyClass) : bool := bool_decide (k ∈ mro c).

Inductive Raised :=
| PyError (cls : PyClass) (msg : string)
| HTTPException (status_code : Z) (detail : string).

Definition class_of (e : Raised) : PyClass :=
  match e with
  | PyError cls _ => cls
  | HTTPException _ _ => HTTPExceptionClass
  end.

Definition isinstance (e : Raised) (k : PyClass) : bool :=
  issubclass (class_of e) k.

(** [str(e)] *)
Definition str (e : Raised) : string :=
  match e with
  | PyError _ msg => msg
  | HTTPException status_code detail =>
      String.append (pretty status_code) (String.append ": " detail)
  end.

(** ** The handler monad *)

Inductive Result (A : Type) :=
| Returns (a : A)
| Raises (e : Raised).
Arguments Returns {A} a.
Arguments Raises {A} e.

(** The frame handed to [model.predict]: column labels and rows. *)
Record DataFrame := mkDataFrame {
  columns : list string;
  values : list (list Q)
}.

(** The state threaded through a handler: every frame the model was
    invoked on, oldest first. *)
Definition Log := list DataFrame.

Definition M (A : Type) : Type := Log -> Result A * Log.

Definition ret {A} (a : A) : M A := fun log => (Returns a, log).

Definition raise {A} (e : Raised) : M A := fun log => (Raises e, log).

Definition bind {A B} (m : M A) (k : A -> M B) : M B :=
  fun log =>
    match m log with
    | (Returns a, log') => k a log'
    | (Raises e, log') => (Raises e, log')
    end.

Declare Scope py_scope.
Delimit Scope py_scope with py.
Notation "x <- m ;; k" := (bind m (fun x => k))
  (at level 100, m at next level, right associativity) : py_scope.
Notation "m ;; k" := (bind m (fun _ => k))
  (at level 100, right associativity) : py_scope.
Local Open Scope py_scope.

(** [if c: raise e] *)
Definition raise_if (c : bool) (e : Raised) : M unit :=
  if c then raise e else ret tt.

(** The first [except] clause whose class the exception is an instance of. *)
Fixpoint find_clause {A} (clauses : list (PyClass * (Raised -> M A)))
    (e : Raised) : option (Raised -> M A) :=
  match clauses with
  | [] => None
  | (k, h) :: rest => if isinstance e k then Some h else find_clause rest e
  end.

(** [try: body  except K1 as e: h1  except K2 as e: h2 ...] *)
Definition try_except {A} (body : M A)
    (clauses : list (PyClass * (Raised -> M A))) : M A :=
  fun log =>
    match body log with
    | (Returns a, log') => (Returns a, log')
    | (Raises e, log') =>
        match find_clause clauses e with
        | Some h => h e log'
        | None => (Raises e, log')
        end
    end.

(** ** The model handle

    [model] is an opaque artifact; [predict] is its one capability.  It
    may raise, and what it returns is a two-dimensional array. *)

Record Model := mkModel {
  predict : DataFrame -> Result (list (list Q))
}.

(** [model.predict(input_df, verbose=0)]: the call is logged. *)
Definition model_predict (model : Model) (input_df : DataFrame)
    : M (list (list Q)) :=
  fun log => (predict model input_df, (log ++ [input_df])%list).

(** [a[i]] on an array: NumPy's [IndexError] out of range. *)
Definition getitem {A} (a : list A) (i : nat) : M A :=
  match a !! i with
  | Some x => ret x
  | None =>
      raise (PyError IndexError
               (String.append "index "
                  (String.append (pretty i)
                     (String.append " is out of bounds for axis 0 with size "
                        (pretty (length a))))))
  end.

(** [a.flatten()] *)
Definition flatten (a : list (list Q)) : list Q := concat a.

(** [enumerate(l)] *)
Definition enumerate {A} (l : list A) : list (Z * A) :=
  imap (fun i x => (Z.of_nat i, x)) l.

(** [len(l)] *)
Definition len {A} (l : list A) : Z := Z.of_nat (length l).

(** Truth value of a list: non-empty. *)
Definition truthy {A} (l : list A) : bool :=
  match l with [] => false | _ :: _ => true end.

(** ** Schemas ([api.py], lines 41-71) *)

Record PredictionInput := mkPredictionInput {
  pregnancies : Q;
  glucose : Q;
  blood_pressure : Q;
  skin_thickness : Q;
  insulin : Q;
  bmi : Q;
  diabetes_pedigree_function : Q;
  age : Q
}.

Record PredictionOutput := mkPredictionOutput {
  prediction : Z;
  probability : Q;
  confidence : string
}.

(** One [Field(..., ge=..., le=...)] declaration: the attribute name, its
    two bounds and the attribute's value in a record. *)
Record FieldInfo := mkFieldInfo {
  field_name : string;
  field_ge : Q;
  field_le : Q;
  field_get : PredictionInput -> Q
}.

Definition PredictionInput_fields : list FieldInfo :=
  [ mkFieldInfo "pregnancies" 0 17 pregnancies;
    mkFieldInfo "glucose" 44 199 glucose;
    mkFieldInfo "blood_pressure" 24 122 blood_pressure;
    mkFieldInfo "skin_thickness" 7 99 skin_thickness;
    mkFieldInfo "insulin" 14 846 insulin;
    mkFieldInfo "bmi" (Py.float_literal (182 # 10))
      (Py.float_literal (671 # 10)) bmi;
    mkFieldInfo "diabetes_pedigree_function" (Py.float_literal (78 # 1000))
      (Py.float_literal (242 # 100)) diabetes_pedigree_function;
    mkFieldInfo "age" 21 81 age ].

(** An entry of a validation error's [loc]: a key or a list index. *)
Inductive LocItem := LocKey (k : string) | LocIndex (i : Z).

(** One validation error as the framework reports it: the violated
    constraint, where, the bound and the offending input. *)
Record ErrorDetail := mkErrorDetail {
  err_type : string;
  err_loc : list LocItem;
  err_bound : Q;
  err_input : Q
}.

(** The [ge]/[le] check of one field; [loc] is the path of the record. *)
Definition check_field (loc : list LocItem) (r : PredictionInput)
    (f : FieldInfo) : list ErrorDetail :=
  let v := field_get f r in
  if Py.ge v (field_ge f) then
    if Py.ge (field_le f) v then []
    else [mkErrorDetail "less_than_equal" (loc ++ [LocKey (field_name f)])%list
            (field_le f) v]
  else [mkErrorDetail "greater_than_equal" (loc ++ [LocKey (field_name f)])%list
          (field_ge f) v].

(** Validation of one record: every field is checked, in declaration
    order, and all errors are collected. *)
Definition validate_record (loc : list LocItem) (r : PredictionInput)
    : list ErrorDetail :=
  flat_map (check_field loc r) PredictionInput_fields.

(** Validation of a request body that is a list of records. *)
Definition validate_list (loc : list LocItem) (rs : list PredictionInput)
    : list ErrorDetail :=
  concat (imap (fun i r => validate_record (loc ++ [LocIndex (Z.of_nat i)])%list r) rs).

(** ** Request handlers *)

(** The dict literal of lines 106-115 and 160-169: the row of one
    patient, keyed by column label, in insertion order. *)
Definition row_dict (input_data : PredictionInput) : list (string * Q) :=
  [ ("Pregnancies", pregnancies input_data);
    ("Glucose", glucose input_data);
    ("BloodPressure", blood_pressure input_data);
    ("SkinThickness", skin_thickness input_data);
    ("Insulin", insulin input_data);
    ("BMI", bmi input_data);
    ("DiabetesPedigreeFunction", diabetes_pedigree_function input_data);
    ("Age", age input_data) ].

(** [pd.DataFrame(records)] for dicts that share their keys: the columns
    are the keys of the first dict, one row per dict, in order. *)
Definition pd_DataFrame (records : list (list (string * Q))) : DataFrame :=
  {| columns := match records with [] => [] | d :: _ => map fst d end;
     values := map (map snd) records |}.

(** [POST /predict], lines 104-136. *)
Definition predict_diabetes (model : Model) (input_data : PredictionInput)
    : M PredictionOutput :=
  try_except
    (let input_df := pd_DataFrame [row_dict input_data] in
     out <- model_predict model input_df ;;
     row0 <- getitem out 0 ;;
     prediction_proba <- getitem row0 0 ;;
     let prediction := Py.int_of_bool (Py.gt prediction_proba (1 # 2)) in
     let confidence_prob :=
       Py.max prediction_proba (Py.sub32 1 prediction_proba) in
     let confidence :=
       if Py.ge confidence_prob (8 # 10) then "High"
       else if Py.ge confidence_prob (6 # 10) then "Medium"
       else "Low" in
     ret {| prediction := prediction;
            probability := prediction_proba;
            confidence := confidence |})
    [ (Exception, fun e =>
         raise (HTTPException 500 (String.append "Prediction error: " (str e)))) ].

Module Entry.
(** One dict appended to [results] in the batch loop. *)
Record t := mk {
  patient_id : Z;
  prediction : Z;
  probability : Q;
  confidence : string
}.
End Entry.

Record BatchOutput := mkBatchOutput {
  total_patients : Z;
  predictions : list Entry.t
}.

(** Body of the loop of lines 177-193: one iteration, appending to
    [results]. *)
Definition batch_step (results : list Entry.t) (ip : Z * Q) : list Entry.t :=
  let '(i, proba) := ip in
  let prediction := Py.int_of_bool (Py.gt proba (1 # 2)) in
  let confidence_prob := Py.max proba (Py.sub32 1 proba) in
  let confidence :=
    if Py.ge confidence_prob (8 # 10) then "High"
    else if Py.ge confidence_prob (6 # 10) then "Medium"
    else "Low" in
  (results ++ [ {| Entry.patient_id := i + 1;
                   Entry.prediction := prediction;
                   Entry.probability := proba;
                   Entry.confidence := confidence |} ])%list.

(** [POST /predict-batch], lines 150-202. *)
Definition predict_batch (model : Model) (patients : list PredictionInput)
    : M BatchOutput :=
  try_except
    (raise_if (negb (truthy patients))
       (PyError ValueError "Empty patient list") ;;
     raise_if (100 <? len patients)
       (PyError ValueError "Maximum 100 patients per request") ;;
     let data_list :=
       fold_left (fun data_list patient => (data_list ++ [row_dict patient])%list)
         patients [] in
     let input_df := pd_DataFrame data_list in
     out <- model_predict model input_df ;;
     let predictions_proba := flatten out in
     let results := fold_left batch_step (enumerate predictions_proba) [] in
     ret {| total_patients := len patients; predictions := results |})
    [ (ValueError, fun e => raise (HTTPException 400 (str e)));
      (Exception, fun e =>
         raise (HTTPException 500
                  (String.append "Batch prediction error: " (str e)))) ].

(** [GET /health], lines 77-81. *)
Record HealthBody := mkHealthBody {
  status : string;
  model_loaded : bool;
  service : string
}.

Definition health_check : M HealthBody :=
  ret {| status := "healthy";
         model_loaded := true;
         service := "Diabetes Prediction API" |}.

(** [GET /model-info], lines 208-223. *)
Record ModelInfoBody := mkModelInfoBody {
  model_name : string;
  input_features : list string;
  output : string;
  framework : string;
  threshold : Q
}.

Definition model_info : M ModelInfoBody :=
  ret {| model_name := "Deep Learning Diabetes Predictor";
         input_features :=
           [ "Pregnancies"; "Glucose"; "BloodPressure"; "SkinThickness";
             "Insulin"; "BMI"; "DiabetesPedigreeFunction"; "Age" ];
         output := "Diabetes probability (0-1)";
         framework := "TensorFlow/Keras";
         threshold := 1 # 2 |}.

(** ** The application: routing and request validation

    The framework validates the body against the declared schema before
    the handler runs and answers 422 itself when validation fails; an
    [HTTPException] raised by a handler becomes a response with its
    status code. *)

Inductive Request :=
| GET_health
| POST_predict (body : PredictionInput)
| POST_predict_batch (body : list PredictionInput)
| GET_model_info.

Inductive Response :=
| HealthResponse (body : HealthBody)
| PredictionResponse (body : PredictionOutput)
| BatchResponse (body : BatchOutput)
| ModelInfoResponse (body : ModelInfoBody)
| ValidationErrorResponse (detail : list ErrorDetail)
| ErrorResponse (status_code : Z) (detail : string).

Definition status_code_of (r : Response) : Z :=
  match r with
  | ValidationErrorResponse _ => 422
  | ErrorResponse status_code _ => status_code
  | _ => 200
  end.

Definition client_error (r : Response) : Prop :=
  400 <= status_code_of r < 500.

Definition server_error (r : Response) : Prop :=
  500 <= status_code_of r < 600.

(** Run a handler and turn a raised [HTTPException] into its response;
    any other exception propagates to the server. *)
Definition respond {A} (wrap : A -> Response) (handler : M A) : M Response :=
  fun log =>
    match handler log with
    | (Returns a, log') => (Returns (wrap a), log')
    | (Raises (HTTPException status_code detail), log') =>
        (Returns (ErrorResponse status_code detail), log')
    | (Raises e, log') => (Raises e, log')
    end.

Definition app (model : Model) (req : Request) : M Response :=
  match req with
  | GET_health => respond HealthResponse health_check
  | POST_predict body =>
      match validate_record [LocKey "body"] body with
      | [] => respond PredictionResponse (predict_diabetes model body)
      | errors => ret (ValidationErrorResponse errors)
      end
  | POST_predict_batch body =>
      match validate_list [LocKey "body"] body with
      | [] => respond BatchResponse (predict_batch model body)
      | errors => ret (ValidationErrorResponse errors)
      end
  | GET_model_info => respond ModelInfoResponse model_info
  end.

(** ** Decoding a request body

    The numbers of a JSON body are decoded to Python floats: a number
    written in decimal becomes the binary64 number nearest to it, or an
    infinity when that lies beyond the binary64 range.  [app] above is
    the application on a body whose numbers are finite; [asgi] is the
    application on a body as it is written. *)

Inductive JsonFloat :=
| Finite (x : Q)
| PosInfinity
| NegInfinity.

Definition json_float (written : Q) : JsonFloat :=
  let x := Float.float64 written in
  if Qle_bool (Float.pow2 1024) x then PosInfinity
  else if Qle_bool x (- Float.pow2 1024) then NegInfinity
  else Finite x.

Definition finite (x : JsonFloat) : option Q :=
  match x with
  | Finite x => Some x
  | PosInfinity | NegInfinity => None
  end.

(** The record decoded from the eight numbers written, when all of them
    are finite. *)
Definition decode_record (written : PredictionInput) : option PredictionInput :=
  a ← finite (json_float (pregnancies written));
  b ← finite (json_float (glucose written));
  c ← finite (json_float (blood_pressure written));
  d ← finite (json_float (skin_thickness written));
  e ← finite (json_float (insulin written));
  f ← finite (json_float (bmi written));
  g ← finite (json_float (diabetes_pedigree_function written));
  h ← finite (json_float (age written));
  Some {| pregnancies := a;
          glucose := b;
          blood_pressure := c;
          skin_thickness := d;
          insulin := e;
          bmi := f;
          diabetes_pedigree_function := g;
          age := h |}.

Definition decode_request (written : Request) : option Request :=
  match written with
  | GET_health => Some GET_health
  | POST_predict body => POST_predict <$> decode_record body
  | POST_predict_batch body => POST_predict_batch <$> mapM decode_record body
  | GET_model_info => Some GET_model_info
  end.

(** An infinite number violates the bound of its field, whichever field
    it is; the validation error echoes the number, the response cannot be
    serialised, and the server answers 500 in place of the 422. *)
Definition asgi (model : Model) (written : Request) : M Response :=
  match decode_request written with
  | Some req => app model req
  | None => ret (ErrorResponse 500 "Internal Server Error")
  end.

(** ** Process start ([api.py], lines 17-20)

    [load_model] stands for [tf.keras.models.load_model]: given a path it
    returns a model or raises. *)

(** A process either died while importing the module or holds the
    module's [model] and serves. *)
Inductive Process :=
| Died (e : Raised)
| Serving (model : Model).

Section Startup.

Variable load_model : string -> Result Model.

Definition keras_load (path : string) : M Model :=
  fun log => (load_model path, log).

(** The module-level [try]/[except FileNotFoundError]. *)
Definition api_module : M Model :=
  try_except
    (keras_load "deep_learning_model.keras")
    [ (FileNotFoundError, fun _ =>
         raise (PyError RuntimeError
           "Model file 'deep_learning_model.keras' not found. Please ensure it's in the root directory.")) ].

(** [dl_app.py], line 7: the same load, unguarded. *)
Definition dl_app_module : M Model :=
  keras_load "deep_learning_model.keras".

Definition start : Process :=
  match api_module [] with
  | (Returns model, _) => Serving model
  | (Raises e, _) => Died e
  end.

(** What a request gets from a process: nothing from a dead one. *)
Definition serve (p : Process) (req : Request) (log : Log)
    : option (Result Response * Log) :=
  match p with
  | Died _ => None
  | Serving model => Some (app model req log)
  end.

End Startup.

(** ** The form handler of [dl_app.py], lines 27-47 *)

(** What the page shows: [st.error] or [st.success], with the number
    that is formatted into the message. *)
Inductive Shown :=
| st_error (shown : Q)
| st_success (shown : Q).

Record FormResult := mkFormResult {
  form_prediction : Z;
  form_shown : Shown
}.

Definition dl_app_submitted (model : Model) (input : PredictionInput)
    : M FormResult :=
  let input_data := pd_DataFrame [row_dict input] in
  out <- model_predict model input_data ;;
  row0 <- getitem out 0 ;;
  prediction_proba <- getitem row0 0 ;;
  let prediction := Py.int_of_bool (Py.gt prediction_proba (1 # 2)) in
  ret {| form_prediction := prediction;
         form_shown := if (prediction =? 1) then st_error prediction_proba
                       else st_success (Py.sub32 1 prediction_proba) |}.

(** ** Configuration ([api.py], lines 226-232) *)

(** [os.getenv] returns the variable's string, or the default object as
    it was passed. *)
Inductive PyVal :=
| VStr (s : string)
| VInt (n : Z).

Definition os_getenv (environ : gmap string string) (key : string)
    (default : PyVal) : PyVal :=
  match environ !! key with
  | Some v => VStr v
  | None => default
  end.

Module IntLiteral.

Fixpoint lstrip (l : list ascii) : list ascii :=
  match l with
  | c :: l' => if Ascii.is_space c then lstrip l' else l
  | [] => []
  end.

Definition strip (l : list ascii) : list ascii :=
  rev (lstrip (rev (lstrip l))).

(** Decimal digits, single underscores allowed between digits. *)
Fixpoint digits (acc : Z) (after_digit : bool) (l : list ascii) : option Z :=
  match l with
  | [] => if after_digit then Some acc else None
  | c :: l' =>
      match Ascii.is_nat c with
      | Some d => digits (10 * acc + Z.of_nat d) true l'
      | None =>
          if Ascii.eqb c "_" && after_digit then digits acc false l'
          else None
      end
  end.

(** Base-10 integer literal of ASCII characters: surrounding whitespace,
    an optional sign, digits.  (Python also accepts the decimal digits and
    the white space of other scripts; a string with such characters is
    not a literal here.) *)
Definition parse (s : string) : option Z :=
  match strip (list_ascii_of_string s) with
  | "-"%char :: l => Z.opp <$> digits 0 false l
  | "+"%char :: l => digits 0 false l
  | l => digits 0 false l
  end.

(** The digits the conversion scans before it stops: those of the
    longest run of digits and underscores after the sign. *)
Fixpoint scanned (l : list ascii) : nat :=
  match l with
  | [] => 0
  | c :: l' =>
      match Ascii.is_nat c with
      | Some _ => S (scanned l')
      | None => if Ascii.eqb c "_" then scanned l' else 0
      end
  end.

Definition digit_count (s : string) : nat :=
  match strip (list_ascii_of_string s) with
  | "-"%char :: l => scanned l
  | "+"%char :: l => scanned l
  | l => scanned l
  end.

End IntLiteral.

(** [int(v)] *)
Definition py_int (v : PyVal) : Result Z :=
  match v with
  | VInt n => Returns n
  | VStr s =>
      if (4300 <? IntLiteral.digit_count s)%nat then
        Raises (PyError ValueError
          (String.append
             "Exceeds the limit (4300 digits) for integer string conversion: value has "
             (String.append (pretty (IntLiteral.digit_count s))
                " digits; use sys.set_int_max_str_digits() to increase the limit")))
      else
        match IntLiteral.parse s with
        | Some n => Returns n
        | None =>
            Raises (PyError ValueError
              (String.append "invalid literal for int() with base 10: '"
                 (String.append s "'")))
        end
  end.

(** [v == s] for a string [s] *)
Definition py_eq_str (v : PyVal) (s : string) : bool :=
  match v with
  | VStr s' => bool_decide (s' = s)
  | VInt _ => false
  end.

(** The keyword arguments of [uvicorn.run]. *)
Record UvicornRun := mkUvicornRun {
  run_app : string;
  host : string;
  port : Z;
  reload : bool
}.

(** The [__main__] block: the arguments [uvicorn.run] is called with in
    the given environment, or the exception raised on the way. *)
Definition main (environ : gmap string string) : Result UvicornRun :=
  match py_int (os_getenv environ "PORT" (VInt 8000)) with
  | Raises e => Raises e
  | Returns port =>
      Returns {| run_app := "api:app";
                 host := "0.0.0.0";
                 port := port;
                 reload := py_eq_str
                             (os_getenv environ "ENVIRONMENT" (VStr "development"))
                             "development" |}
  end.

(** ** Vocabulary of the properties *)

(** The frame the single-prediction handler builds for a record. *)
Definition single_frame (input : PredictionInput) : DataFrame :=
  pd_DataFrame [row_dict input].

(** The frame the batch handler builds for a list of records. *)
Definition batch_frame (patients : list PredictionInput) : DataFrame :=
  pd_DataFrame (map row_dict patients).

(** The model answers frame [df] with an array whose entry [[0][0]] is [p]. *)
Definition model_yields (model : Model) (df : DataFrame) (p : Q) : Prop :=
  exists out row0,
    predict model df = Returns out /\ out !! 0%nat = Some row0
    /\ row0 !! 0%nat = Some p.

(** The result the per-row rule derives from a probability. *)
Definition result_of (p : Q) : PredictionOutput :=
  {| prediction := prediction_of p;
     probability := p;
     confidence := confidence_of p |}.

Definition entry_of (i : Z) (p : Q) : Entry.t :=
  {| Entry.patient_id := i + 1;
     Entry.prediction := prediction_of p;
     Entry.probability := p;
     Entry.confidence := confidence_of p |}.

(** The spec's wording of the tier rule, on the mathematical maximum
    and the exact difference. *)
Definition tier_rule (p : Q) (conf : string) : Prop :=
  let confidence_prob := Qmax p (1 - p) in
  ((8 # 10 <= confidence_prob)%Q -> conf = "High")
  /\ ((6 # 10 <= confidence_prob < 8 # 10)%Q -> conf = "Medium")
  /\ ((confidence_prob < 6 # 10)%Q -> conf = "Low").

(** The same rule on the mathematical maximum of [p] and the float32
    difference [1 - p]. *)
Definition float32_tier_rule (p : Q) (conf : string) : Prop :=
  let confidence_prob := Qmax p (Float.float32 (1 - p)) in
  ((8 # 10 <= confidence_prob)%Q -> conf = "High")
  /\ ((6 # 10 <= confidence_prob < 8 # 10)%Q -> conf = "Medium")
  /\ ((confidence_prob < 6 # 10)%Q -> conf = "Low").

(** The spec's names for the two size errors of the batch operation and
    for the fatal error at start. *)
Definition EmptyBatchError : Raised :=
  HTTPException 400 "Empty patient list".

Definition BatchTooLargeError : Raised :=
  HTTPException 400 "Maximum 100 patients per request".

Definition ModelLoadError : Raised :=
  PyError RuntimeError
    "Model file 'deep_learning_model.keras' not found. Please ensure it's in the root directory.".

(** A field's value lies in the closed interval of its declaration. *)
Definition in_range (f : FieldInfo) (r : PredictionInput) : Prop :=
  (field_ge f <= field_get f r <= field_le f)%Q.

(** A validation error names a field: its location ends in the field's
    name. *)
Definition names_field (e : ErrorDetail) (f : FieldInfo) : Prop :=
  last (err_loc e) = Some (LocKey (field_name f)).

(** ** Concrete inputs *)

(** The example record of the schema ([api.py], lines 54-63). *)
Definition example_input : PredictionInput :=
  {| pregnancies := 3;
     glucose := 117;
     blood_pressure := 72;
     skin_thickness := 29;
     insulin := 125;
     bmi := Py.float_literal (323 # 10);
     diabetes_pedigree_function := Py.float_literal (3725 # 10000);
     age := 29 |}.

(** The same record as a request writes it, in decimal. *)
Definition written_example : PredictionInput :=
  {| pregnancies := 3;
     glucose := 117;
     blood_pressure := 72;
     skin_thickness := 29;
     insulin := 125;
     bmi := 323 # 10;
     diabetes_pedigree_function := 3725 # 10000;
     age := 29 |}.

(** A model that answers every row of a frame with the same probability. *)
Definition constant_model (p : Q) : Model :=
  {| predict := fun df => Returns (map (fun _ => [p]) (values df)) |}.

(** A model whose [predict] raises. *)
Definition failing_model (e : Raised) : Model :=
  {| predict := fun _ => Raises e |}.


Definition with_glucose (v : Q) (r : PredictionInput) : PredictionInput :=
  {| pregnancies := pregnancies r;
     glucose := v;
     blood_pressure := blood_pressure r;
     skin_thickness := skin_thickness r;
     insulin := insulin r;
     bmi := bmi r;
     diabetes_pedigree_function := diabetes_pedigree_function r;
     age := age r |}.

(** The [ValueError] an inference backend raises on an input it cannot
    take. *)
Definition shape_error : Raised :=
  PyError ValueError "Input 0 of layer is incompatible with the layer".

(** A loader that finds no artifact at the path: for a path ending in
    [.keras] that does not exist, [load_model] raises [ValueError]. *)
Definition no_artifact (path : string) : Result Model :=
  Raises (PyError ValueError
            (String.append "File not found: filepath="
               (String.append path
                  ". Please ensure the file is an accessible `.keras` zip file."))).

(** A loader that fails the way the module's [except] clause expects. *)
Definition raises_FileNotFoundError (path : string) : Result Model :=
  Raises (PyError FileNotFoundError
            (String.append "No such file or directory: " path)).

(** ** The sliders of the form ([dl_app.py], lines 16-23)

    [st.slider(label, min_value, max_value, value)]: the widget returns a
    number between [min_value] and [max_value]; [value] is where it
    starts. *)

Record Slider := mkSlider {
  slider_label : string;
  slider_min : Q;
  slider_max : Q;
  slider_value : Q
}.

Definition dl_app_sliders : list Slider :=
  [ mkSlider "Pregnancies" 0 17 3;
    mkSlider "Glucose" 44 199 117;
    mkSlider "Blood Pressure" 24 122 72;
    mkSlider "Skin Thickness" 7 99 29;
    mkSlider "Insulin" 14 846 125;
    mkSlider "BMI" (Py.float_literal (182 # 10)) (Py.float_literal (671 # 10))
      (Py.float_literal (323 # 10));
    mkSlider "Diabetes Pedigree Function" (Py.float_literal (78 # 1000))
      (Py.float_literal (242 # 100)) (Py.float_literal (3725 # 10000));
    mkSlider "Age" 21 81 29 ].

(** The eight variables the form binds to its sliders, in the order of
    the sliders. *)
Definition form_values (r : PredictionInput) : list Q :=
  [ pregnancies r; glucose r; blood_pressure r; skin_thickness r;
    insulin r; bmi r; diabetes_pedigree_function r; age r ].

(** Every value of the record lies in the range of its slider.  (A
    slider also moves in steps, of 1 or of 0.01; only the range is
    stated here.) *)
Definition within_sliders (r : PredictionInput) : Prop :=
  Forall2 (fun s v => (slider_min s <= v <= slider_max s)%Q)
    dl_app_sliders (form_values r).

(** The number a message of the form shows. *)
Definition shown_number (s : Shown) : Q :=
  match s with
  | st_error shown => shown
  | st_success shown => shown
  end.

(** ** More vocabulary *)

(** The row of a record as the handlers put it into the frame. *)
Definition row_values (r : PredictionInput) : list Q :=
  [ pregnancies r; glucose r; blood_pressure r; skin_thickness r;
    insulin r; bmi r; diabetes_pedigree_function r; age r ].

(** The eight column labels of the frames. *)
Definition feature_columns : list string :=
  [ "Pregnancies"; "Glucose"; "BloodPressure"; "SkinThickness";
    "Insulin"; "BMI"; "DiabetesPedigreeFunction"; "Age" ].

(** A model that scores every row of a frame on its own, one
    probability per row. *)
Definition row_wise (model : Model) (score : list Q -> Q) : Prop :=
  forall df : DataFrame,
    predict model df = Returns (map (fun row => [score row]) (values df)).

Definition per_row_model (score : list Q -> Q) : Model :=
  {| predict := fun df => Returns (map (fun row => [score row]) (values df)) |}.

(** A score that looks at the glucose column only. *)
Definition glucose_score (row : list Q) : Q :=
  match row !! 1%nat with
  | Some g => (g / 200)%Q
  | None => 0
  end.

(** The fields of a record that violate their bounds, in declaration
    order. *)
Definition out_of_range_fields (r : PredictionInput) : list FieldInfo :=
  List.filter (fun f => negb (Py.ge (field_get f r) (field_ge f)
                              && Py.ge (field_le f) (field_get f r)))
    PredictionInput_fields.

(** The error the framework reports for a field that is out of range. *)
Definition error_for (loc : list LocItem) (r : PredictionInput)
    (f : FieldInfo) : ErrorDetail :=
  if Py.ge (field_get f r) (field_ge f)
  then mkErrorDetail "less_than_equal" (loc ++ [LocKey (field_name f)])%list
         (field_le f) (field_get f r)
  else mkErrorDetail "greater_than_equal" (loc ++ [LocKey (field_name f)])%list
         (field_ge f) (field_get f r).

(** The status codes the application answers with. *)
Definition answered_status (r : Response) : Prop :=
  status_code_of r = 200 \/ status_code_of r = 400
  \/ status_code_of r = 422 \/ status_code_of r = 500.

(** ** Proof automation *)

(** Case analysis over the eight declared fields. *)
Ltac each_field H :=
  unfold PredictionInput_fields in H; simpl in H;
  repeat (destruct H as [<-|H]; [|]); [..|destruct H].

(** * Properties *)

(** ** Rounding *)

Module FloatFacts.

Import Float.

Lemma rne_Z (n : Z) : rne (inject_Z n) = n.
Proof.
  unfold rne. rewrite Qfloor_Z.
  assert (inject_Z n - inject_Z n == 0)%Q as H by ring.
  rewrite H. reflexivity.
Qed.

Lemma rne_bounds (x : Q) : (Qfloor x <= rne x <= Qfloor x + 1)%Z.
Proof.
  unfold rne. destruct (x - inject_Z (Qfloor x) ?= 1 # 2)%Q; [|lia|lia].
  destruct (Z.even (Qfloor x)); lia.
Qed.

Lemma rne_mono (x y : Q) : (x <= y)%Q -> rne x <= rne y.
Proof.
  intros Hxy.
  pose proof (Qfloor_resp_le x y Hxy) as Hf.
  destruct (Z.eq_dec (Qfloor x) (Qfloor y)) as [Heq|Hne].
  - unfold rne. rewrite <- Heq.
    destruct (x - inject_Z (Qfloor x) ?= 1 # 2)%Q eqn:Cx;
      destruct (y - inject_Z (Qfloor x) ?= 1 # 2)%Q eqn:Cy;
      try (destruct (Z.even (Qfloor x))); try lia; exfalso;
      rewrite ?Qeq_alt, ?Qlt_alt, ?Qgt_alt in *;
      first [ apply Qeq_alt in Cx | apply Qlt_alt in Cx | apply Qgt_alt in Cx ];
      first [ apply Qeq_alt in Cy | apply Qlt_alt in Cy | apply Qgt_alt in Cy ];
      lra.
  - pose proof (rne_bounds x). pose proof (rne_bounds y). lia.
Qed.

Lemma rne_ge (n : Z) (x : Q) : (inject_Z n <= x)%Q -> n <= rne x.
Proof. intros H. rewrite <- (rne_Z n). by apply rne_mono. Qed.

Lemma rne_le (n : Z) (x : Q) : (x <= inject_Z n)%Q -> rne x <= n.
Proof. intros H. rewrite <- (rne_Z n). by apply rne_mono. Qed.


Lemma pow2_pos (k : Z) : (0 < pow2 k)%Q.
Proof. apply Qpower_0_lt. reflexivity. Qed.

Lemma pow2_add (a b : Z) : (pow2 (a + b) == pow2 a * pow2 b)%Q.
Proof. apply Qpower_plus. discriminate. Qed.

Lemma pow2_le (a b : Z) : a <= b -> (pow2 a <= pow2 b)%Q.
Proof. intros H. apply Qpower_le_compat_l; [exact H | discriminate]. Qed.

Lemma pow2_lt_inv (a b : Z) : (pow2 a < pow2 b)%Q -> a < b.
Proof. intros H. apply (Qpower_lt_compat_l_inv 2); [exact H | reflexivity]. Qed.

Lemma pow2_Z (k : Z) : 0 <= k -> (pow2 k == inject_Z (2 ^ k))%Q.
Proof. intros H. unfold pow2. by rewrite Zpower_Qpower. Qed.

Lemma Q_num_den (x : Q) : (x * inject_Z (Zpos (Qden x)) == inject_Z (Qnum x))%Q.
Proof. destruct x as [n d]. unfold Qeq. simpl. lia. Qed.

Lemma ilog2_spec (x : Q) :
  (0 < x)%Q -> (pow2 (ilog2 x) <= x < pow2 (ilog2 x + 1))%Q.
Proof.
  intros Hx.
  assert (0 < Qnum x) as Hn.
  { destruct x as [n d]. unfold Qlt in Hx. simpl in *. lia. }
  pose proof (Z.log2_spec (Qnum x) Hn) as [Hn1 Hn2].
  pose proof (Z.log2_spec (Zpos (Qden x)) ltac:(lia)) as [Hd1 Hd2].
  pose proof (Z.log2_nonneg (Qnum x)) as Ha.
  pose proof (Z.log2_nonneg (Zpos (Qden x))) as Hb.
  set (a := Z.log2 (Qnum x)) in *. set (b := Z.log2 (Zpos (Qden x))) in *.
  pose proof (Q_num_den x) as Hxd.
  assert (0 < inject_Z (Zpos (Qden x)))%Q as HD by reflexivity.
  set (D := inject_Z (Zpos (Qden x))) in *. set (N := inject_Z (Qnum x)) in *.
  assert (pow2 a <= N)%Q as HN1.
  { rewrite pow2_Z by lia. unfold N. rewrite <- Zle_Qle. exact Hn1. }
  assert (N < pow2 (a + 1))%Q as HN2.
  { rewrite pow2_Z by lia. unfold N. rewrite <- Zlt_Qlt. exact Hn2. }
  assert (pow2 b <= D)%Q as HD1.
  { rewrite pow2_Z by lia. unfold D. rewrite <- Zle_Qle. exact Hd1. }
  assert (D < pow2 (b + 1))%Q as HD2.
  { rewrite pow2_Z by lia. unfold D. rewrite <- Zlt_Qlt. exact Hd2. }
  assert (x < pow2 (a - b + 1))%Q as Hup.
  { apply (Qmult_lt_r _ _ D HD). rewrite Hxd.
    apply Qlt_le_trans with (pow2 (a + 1)); [exact HN2|].
    replace (a + 1) with ((a - b + 1) + b) by lia. rewrite pow2_add.
    apply Qmult_le_l; [apply pow2_pos | exact HD1]. }
  assert (pow2 (a - b - 1) <= x)%Q as Hlo.
  { apply (Qmult_le_r _ _ D HD). rewrite Hxd.
    apply Qle_trans with (pow2 a); [|exact HN1].
    replace a with ((a - b - 1) + (b + 1)) at 2 by lia. rewrite pow2_add.
    apply Qmult_le_l; [apply pow2_pos | apply Qlt_le_weak; exact HD2]. }
  unfold ilog2. fold a b.
  destruct (Qle_bool (pow2 (a - b)) x) eqn:Hc.
  - apply Qle_bool_iff in Hc. split; [exact Hc | exact Hup].
  - split; [exact Hlo|].
    replace (a - b - 1 + 1) with (a - b) by lia.
    apply Qnot_le_lt. intros Hle. apply Qle_bool_iff in Hle.
    rewrite Hle in Hc. discriminate.
Qed.

Lemma ilog2_unique (x : Q) (e : Z) :
  (pow2 e <= x < pow2 (e + 1))%Q -> ilog2 x = e.
Proof.
  intros [Hlo Hhi].
  assert (0 < x)%Q as Hx by (pose proof (pow2_pos e); lra).
  destruct (ilog2_spec x Hx) as [Hlo' Hhi'].
  assert (ilog2 x < e + 1) by (apply pow2_lt_inv; lra).
  assert (e < ilog2 x + 1) by (apply pow2_lt_inv; lra).
  lia.
Qed.

Lemma ilog2_mono (x y : Q) : (0 < x)%Q -> (x <= y)%Q -> ilog2 x <= ilog2 y.
Proof.
  intros Hx Hxy.
  destruct (ilog2_spec x Hx) as [Hlo _].
  destruct (ilog2_spec y ltac:(lra)) as [_ Hhi].
  assert (ilog2 x < ilog2 y + 1) by (apply pow2_lt_inv; lra).
  lia.
Qed.


Section Format.

Variables prec emin : Z.
Hypothesis prec_pos : 1 <= prec.

Lemma round_pos_scaled (x : Q) (s : Z) :
  (x / pow2 s * pow2 s == x)%Q.
Proof.
  pose proof (pow2_pos s) as H. field. intros E. rewrite E in H.
  exact (Qlt_irrefl 0 H).
Qed.

Lemma round_pos_nonneg (x : Q) : (0 < x)%Q -> (0 <= round_pos prec emin x)%Q.
Proof.
  intros Hx. unfold round_pos.
  set (s := Z.max (ilog2 x) emin - (prec - 1)).
  pose proof (pow2_pos s) as Hs.
  assert (0 <= rne (x / pow2 s)) as Hr.
  { apply rne_ge. apply Qle_shift_div_l; [exact Hs|].
    change (inject_Z 0) with 0%Q. lra. }
  apply Qmult_le_0_compat; [|lra].
  change 0%Q with (inject_Z 0). by rewrite <- Zle_Qle.
Qed.

Lemma round_pos_lower (x : Q) :
  (0 < x)%Q -> emin <= ilog2 x ->
  (pow2 (ilog2 x) <= round_pos prec emin x)%Q.
Proof.
  intros Hx He. unfold round_pos.
  rewrite (Z.max_l _ _ He).
  set (e := ilog2 x) in *. set (s := e - (prec - 1)).
  pose proof (pow2_pos s) as Hs.
  destruct (ilog2_spec x Hx) as [Hlo _]. fold e in Hlo.
  assert (2 ^ (prec - 1) <= rne (x / pow2 s)) as Hr.
  { apply rne_ge. rewrite <- pow2_Z by lia.
    apply Qle_shift_div_l; [exact Hs|]. rewrite <- pow2_add.
    replace (prec - 1 + s) with e by (unfold s; lia). exact Hlo. }
  replace e with ((prec - 1) + s) at 1 by (unfold s; lia).
  rewrite pow2_add. apply Qmult_le_r; [exact Hs|].
  rewrite (pow2_Z (prec - 1)) by lia. by rewrite <- Zle_Qle.
Qed.

Lemma round_pos_upper (x : Q) :
  (0 < x)%Q ->
  (round_pos prec emin x <= pow2 (Z.max (ilog2 x) emin + 1))%Q.
Proof.
  intros Hx. unfold round_pos.
  set (E := Z.max (ilog2 x) emin). set (s := E - (prec - 1)).
  pose proof (pow2_pos s) as Hs.
  destruct (ilog2_spec x Hx) as [_ Hhi].
  assert (rne (x / pow2 s) <= 2 ^ prec) as Hr.
  { apply rne_le. rewrite <- pow2_Z by lia.
    apply Qle_shift_div_r; [exact Hs|]. rewrite <- pow2_add.
    replace (prec + s) with (E + 1) by (unfold s; lia).
    apply Qlt_le_weak. apply Qlt_le_trans with (pow2 (ilog2 x + 1)); [exact Hhi|].
    apply pow2_le. unfold E. lia. }
  replace (E + 1) with (prec + s) by (unfold s; lia).
  rewrite pow2_add. apply Qmult_le_r; [exact Hs|].
  rewrite (pow2_Z prec) by lia. by rewrite <- Zle_Qle.
Qed.

Lemma round_pos_mono (x y : Q) :
  (0 < x)%Q -> (x <= y)%Q ->
  (round_pos prec emin x <= round_pos prec emin y)%Q.
Proof.
  intros Hx Hxy. assert (0 < y)%Q as Hy by lra.
  pose proof (ilog2_mono x y Hx Hxy) as He.
  destruct (Z.eq_dec (Z.max (ilog2 x) emin) (Z.max (ilog2 y) emin)) as [Heq|Hne].
  - unfold round_pos. rewrite <- Heq.
    set (s := Z.max (ilog2 x) emin - (prec - 1)).
    pose proof (pow2_pos s) as Hs.
    apply Qmult_le_r; [exact Hs|]. rewrite <- Zle_Qle. apply rne_mono.
    apply Qmult_le_r with (pow2 s); [exact Hs|].
    by rewrite !round_pos_scaled.
  - apply Qle_trans with (pow2 (Z.max (ilog2 x) emin + 1));
      [by apply round_pos_upper|].
    apply Qle_trans with (pow2 (ilog2 y));
      [apply pow2_le; lia | apply round_pos_lower; [exact Hy | lia]].
Qed.

Lemma round_proper (x y : Q) : (x == y)%Q -> round prec emin x = round prec emin y.
Proof. intros H. unfold round. by rewrite (Qred_complete x y H). Qed.

Lemma round_0 : round prec emin 0 = 0%Q.
Proof. reflexivity. Qed.

Lemma round_of_pos (x : Q) :
  (0 < x)%Q -> (round prec emin x == round_pos prec emin (Qred x))%Q.
Proof.
  intros Hx. unfold round. cbv zeta.
  pose proof (Qred_correct x) as Hr.
  destruct (Qcompare_spec (Qred x) 0); [exfalso; lra | exfalso; lra |].
  apply Qred_correct.
Qed.

Lemma round_of_neg (x : Q) :
  (x < 0)%Q -> (round prec emin x == - round_pos prec emin (- Qred x))%Q.
Proof.
  intros Hx. unfold round. cbv zeta.
  pose proof (Qred_correct x) as Hr.
  destruct (Qcompare_spec (Qred x) 0); [exfalso; lra | | exfalso; lra].
  apply Qred_correct.
Qed.

Lemma round_mono (x y : Q) :
  (x <= y)%Q -> (round prec emin x <= round prec emin y)%Q.
Proof.
  intros Hxy.
  pose proof (Qred_correct x) as Hrx. pose proof (Qred_correct y) as Hry.
  destruct (Q_dec x 0) as [[Hx|Hx]|Hx]; destruct (Q_dec y 0) as [[Hy|Hy]|Hy];
    try (exfalso; lra).
  - rewrite (round_of_neg x Hx), (round_of_neg y Hy).
    apply Qopp_le_compat. apply round_pos_mono; lra.
  - rewrite (round_of_neg x Hx), (round_of_pos y Hy).
    pose proof (round_pos_nonneg (- Qred x) ltac:(lra)).
    pose proof (round_pos_nonneg (Qred y) ltac:(lra)). lra.
  - rewrite (round_of_neg x Hx), (round_proper y 0 Hy), round_0.
    pose proof (round_pos_nonneg (- Qred x) ltac:(lra)). lra.
  - rewrite (round_of_pos x Hx), (round_of_pos y Hy).
    apply round_pos_mono; lra.
  - rewrite (round_proper x 0 Hx), round_0, (round_of_pos y Hy).
    apply round_pos_nonneg. lra.
  - rewrite (round_proper x 0 Hx), (round_proper y 0 Hy). lra.
Qed.

End Format.

Lemma inject_Z_pred (n : Z) : (inject_Z (n - 1) == inject_Z n - 1)%Q.
Proof. unfold Qeq. simpl. lia. Qed.

Lemma inject_Z_succ (n : Z) : (inject_Z (n + 1) == inject_Z n + 1)%Q.
Proof. unfold Qeq. simpl. lia. Qed.

Lemma rne_gt_half (n : Z) (x : Q) : (inject_Z n - (1 # 2) < x)%Q -> n <= rne x.
Proof.
  intros H.
  assert (n - 1 <= Qfloor x) as Hf.
  { rewrite <- (Qfloor_Z (n - 1)). apply Qfloor_resp_le.
    rewrite inject_Z_pred. lra. }
  destruct (Z.eq_dec (Qfloor x) (n - 1)) as [Heq|Hne].
  - unfold rne. rewrite Heq. pose proof (inject_Z_pred n) as Hp.
    destruct (Qcompare_spec (x - inject_Z (n - 1)) (1 # 2)) as [Hc|Hc|Hc];
      [exfalso; lra | exfalso; lra | lia].
  - pose proof (rne_bounds x). lia.
Qed.

Lemma rne_lt_half (n : Z) (x : Q) : (x < inject_Z n + (1 # 2))%Q -> rne x <= n.
Proof.
  intros H.
  assert (Qfloor x <= n) as Hf.
  { pose proof (Qfloor_le x) as Hle.
    assert (inject_Z (Qfloor x) < inject_Z (n + 1))%Q as Hlt.
    { rewrite inject_Z_succ. lra. }
    rewrite <- Zlt_Qlt in Hlt. lia. }
  destruct (Z.eq_dec (Qfloor x) n) as [Heq|Hne].
  - unfold rne. rewrite Heq.
    destruct (Qcompare_spec (x - inject_Z n) (1 # 2)) as [Hc|Hc|Hc];
      [exfalso; lra | lia | exfalso; lra].
  - pose proof (rne_bounds x). lia.
Qed.

Lemma round_pos_binade (prec emin : Z) (x : Q) (e : Z) :
  (pow2 e <= x < pow2 (e + 1))%Q -> emin <= e ->
  round_pos prec emin x
  = (inject_Z (rne (x / pow2 (e - (prec - 1)))) * pow2 (e - (prec - 1)))%Q.
Proof.
  intros Hx He. unfold round_pos.
  by rewrite (ilog2_unique x e Hx), (Z.max_l _ _ He).
Qed.

End FloatFacts.

(** *** binary32 *)

Lemma float32_mono (x y : Q) :
  (x <= y)%Q -> (Float.float32 x <= Float.float32 y)%Q.
Proof. apply FloatFacts.round_mono. lia. Qed.

Lemma float32_proper (x y : Q) :
  (x == y)%Q -> Float.float32 x = Float.float32 y.
Proof. apply FloatFacts.round_proper. Qed.

Lemma float32_half_to_one (x : Q) :
  (1 # 2 <= x < 1)%Q ->
  (Float.float32 x == inject_Z (Float.rne (Qred x * 16777216)) * (1 # 16777216))%Q.
Proof.
  intros Hx. unfold Float.float32.
  rewrite (FloatFacts.round_of_pos 24 (-126) x) by lra.
  pose proof (Qred_correct x) as Hr.
  rewrite (FloatFacts.round_pos_binade 24 (-126) (Qred x) (-1)); [|split|lia].
  - change (Float.pow2 (-1 - (24 - 1))) with (1 # 16777216)%Q.
    assert (Qred x / (1 # 16777216) == Qred x * 16777216)%Q as Hd by field.
    assert (Float.rne (Qred x / (1 # 16777216)) = Float.rne (Qred x * 16777216)) as ->.
    { apply Z.le_antisymm; apply FloatFacts.rne_mono; rewrite Hd; lra. }
    reflexivity.
  - change (Float.pow2 (-1)) with (1 # 2)%Q. lra.
  - change (Float.pow2 (-1 + 1)) with 1%Q. lra.
Qed.

Lemma float32_ge_08 (x : Q) :
  (8 # 10 <= Float.float32 x)%Q <-> (26843545 # 33554432 < x)%Q.
Proof.
  split.
  - intros H. apply Qnot_le_lt. intros Hle.
    pose proof (FloatFacts.round_mono 24 (-126) ltac:(lia) x (26843545 # 33554432) Hle) as Hm.
    fold Float.float32 in Hm.
    assert (Float.float32 (26843545 # 33554432) < 8 # 10)%Q by (by vm_compute).
    lra.
  - intros H. destruct (Qlt_le_dec x 1) as [Hlt|Hge].
    + rewrite (float32_half_to_one x) by lra.
      pose proof (Qred_correct x) as Hr.
      assert (13421773 <= Float.rne (Qred x * 16777216)) as Hn.
      { apply FloatFacts.rne_gt_half. change (inject_Z 13421773) with (13421773 # 1)%Q. lra. }
      rewrite Zle_Qle in Hn. change (inject_Z 13421773) with (13421773 # 1)%Q in Hn.
      lra.
    + pose proof (FloatFacts.round_mono 24 (-126) ltac:(lia) 1 x Hge) as Hm.
      fold Float.float32 in Hm.
      assert (Float.float32 1 == 1)%Q by (by vm_compute).
      lra.
Qed.

Lemma float32_lt_06 (x : Q) :
  (Float.float32 x < 6 # 10)%Q <-> (x < 20132659 # 33554432)%Q.
Proof.
  split.
  - intros H. apply Qnot_le_lt. intros Hle.
    pose proof (FloatFacts.round_mono 24 (-126) ltac:(lia) (20132659 # 33554432) x Hle) as Hm.
    fold Float.float32 in Hm.
    assert (6 # 10 <= Float.float32 (20132659 # 33554432))%Q by (by vm_compute).
    lra.
  - intros H. destruct (Qlt_le_dec x (1 # 2)) as [Hlt|Hge].
    + pose proof (FloatFacts.round_mono 24 (-126) ltac:(lia) x (1 # 2) ltac:(lra)) as Hm.
      fold Float.float32 in Hm.
      assert (Float.float32 (1 # 2) == 1 # 2)%Q by (by vm_compute).
      lra.
    + rewrite (float32_half_to_one x) by lra.
      pose proof (Qred_correct x) as Hr.
      assert (Float.rne (Qred x * 16777216) <= 10066329) as Hn.
      { apply FloatFacts.rne_lt_half. change (inject_Z 10066329) with (10066329 # 1)%Q. lra. }
      rewrite Zle_Qle in Hn. change (inject_Z 10066329) with (10066329 # 1)%Q in Hn.
      lra.
Qed.

Lemma float64_mono (x y : Q) :
  (x <= y)%Q -> (Float.float64 x <= Float.float64 y)%Q.
Proof. apply FloatFacts.round_mono. lia. Qed.

Lemma float64_proper (x y : Q) :
  (x == y)%Q -> Float.float64 x = Float.float64 y.
Proof. apply FloatFacts.round_proper. Qed.

(** ** Comparisons *)

Module PyFacts.

Lemma gt_true (a b : Q) : Py.gt a b = true <-> (b < a)%Q.
Proof.
  unfold Py.gt. destruct (Qlt_le_dec b a) as [Hlt|Hle]; split; intros H;
    try done. exfalso. lra.
Qed.

Lemma gt_false (a b : Q) : Py.gt a b = false <-> (a <= b)%Q.
Proof.
  unfold Py.gt. destruct (Qlt_le_dec b a) as [Hlt|Hle]; split; intros H;
    try done. exfalso. lra.
Qed.

Lemma ge_true (a b : Q) : Py.ge a b = true <-> (b <= a)%Q.
Proof.
  unfold Py.ge. destruct (Qlt_le_dec a b) as [Hlt|Hle]; split; intros H;
    try done. exfalso. lra.
Qed.

Lemma ge_false (a b : Q) : Py.ge a b = false <-> (a < b)%Q.
Proof.
  unfold Py.ge. destruct (Qlt_le_dec a b) as [Hlt|Hle]; split; intros H;
    try done. exfalso. lra.
Qed.

End PyFacts.

(** ** The tier of a confidence probability *)

Lemma tier_of_confidence_prob_High (c : Q) :
  tier_of_confidence_prob c = High <-> (8 # 10 <= c)%Q.
Proof.
  unfold tier_of_confidence_prob.
  destruct (Py.ge c (8 # 10)) eqn:E8.
  - apply PyFacts.ge_true in E8. tauto.
  - apply PyFacts.ge_false in E8.
    destruct (Py.ge c (6 # 10)); split; intros H; try discriminate H; lra.
Qed.

Lemma tier_of_confidence_prob_Medium (c : Q) :
  tier_of_confidence_prob c = Medium <-> (6 # 10 <= c < 8 # 10)%Q.
Proof.
  unfold tier_of_confidence_prob.
  destruct (Py.ge c (8 # 10)) eqn:E8.
  - apply PyFacts.ge_true in E8. split; intros H; [discriminate H | lra].
  - apply PyFacts.ge_false in E8.
    destruct (Py.ge c (6 # 10)) eqn:E6.
    + apply PyFacts.ge_true in E6. tauto.
    + apply PyFacts.ge_false in E6. split; intros H; [discriminate H | lra].
Qed.

Lemma tier_of_confidence_prob_Low (c : Q) :
  tier_of_confidence_prob c = Low <-> (c < 6 # 10)%Q.
Proof.
  unfold tier_of_confidence_prob.
  destruct (Py.ge c (8 # 10)) eqn:E8.
  - apply PyFacts.ge_true in E8. split; intros H; [discriminate H | lra].
  - apply PyFacts.ge_false in E8.
    destruct (Py.ge c (6 # 10)) eqn:E6.
    + apply PyFacts.ge_true in E6. split; intros H; [discriminate H | lra].
    + apply PyFacts.ge_false in E6. tauto.
Qed.

(** ** The loops of the batch handler *)

Lemma fold_left_snoc_map {A B} (f : A -> B) (l : list A) (acc : list B) :
  fold_left (fun acc x => acc ++ [f x])%list l acc = (acc ++ map f l)%list.
Proof.
  revert acc. induction l as [|x l IH]; intros acc; simpl.
  - by rewrite app_nil_r.
  - rewrite IH. by rewrite <- app_assoc.
Qed.

Lemma batch_step_entry (results : list Entry.t) (i : Z) (p : Q) :
  batch_step results (i, p) = (results ++ [entry_of i p])%list.
Proof.
  unfold batch_step, entry_of, confidence_of, tier_of_confidence_prob,
    confidence_prob_of, prediction_of.
  by destruct (Py.ge (Py.max p (Py.sub32 1 p)) (8 # 10)),
    (Py.ge (Py.max p (Py.sub32 1 p)) (6 # 10)).
Qed.

Lemma batch_loop_from (f : nat -> Z) (ps : list Q) (acc : list Entry.t) :
  fold_left batch_step (imap (fun i x => (f i, x)) ps) acc
  = (acc ++ imap (fun i p => entry_of (f i) p) ps)%list.
Proof.
  revert f acc. induction ps as [|p ps IH]; intros f acc; cbn [imap fold_left].
  - by rewrite app_nil_r.
  - rewrite batch_step_entry.
    etrans; [apply (IH (f ∘ S))|]. by rewrite <- app_assoc.
Qed.

Lemma batch_loop (ps : list Q) :
  fold_left batch_step (enumerate ps) []
  = imap (fun i p => entry_of (Z.of_nat i) p) ps.
Proof. unfold enumerate. by rewrite batch_loop_from. Qed.

(** ** What the handlers compute *)

Lemma predict_diabetes_returns model input out row0 p log :
  predict model (single_frame input) = Returns out ->
  out !! 0%nat = Some row0 ->
  row0 !! 0%nat = Some p ->
  predict_diabetes model input log
  = (Returns (result_of p), (log ++ [single_frame input])%list).
Proof.
  intros Hout Hrow Hp.
  unfold predict_diabetes, try_except, bind, model_predict, getitem.
  fold (single_frame input). rewrite Hout, Hrow. unfold ret at 1.
  rewrite Hp. unfold ret.
  unfold result_of, confidence_of, tier_of_confidence_prob,
    confidence_prob_of, prediction_of.
  by destruct (Py.ge (Py.max p (Py.sub32 1 p)) (8 # 10)),
    (Py.ge (Py.max p (Py.sub32 1 p)) (6 # 10)).
Qed.

Lemma predict_diabetes_model_raises model input e log :
  predict model (single_frame input) = Raises e ->
  isinstance e Exception = true ->
  predict_diabetes model input log
  = (Raises (HTTPException 500 (String.append "Prediction error: " (str e))),
     (log ++ [single_frame input])%list).
Proof.
  intros Hout Hcls.
  unfold predict_diabetes, try_except, bind, model_predict.
  fold (single_frame input). rewrite Hout. simpl. by rewrite Hcls.
Qed.

Lemma dl_app_submitted_returns model input out row0 p log :
  predict model (single_frame input) = Returns out ->
  out !! 0%nat = Some row0 ->
  row0 !! 0%nat = Some p ->
  exists shown,
    dl_app_submitted model input log
    = (Returns {| form_prediction := prediction_of p; form_shown := shown |},
       (log ++ [single_frame input])%list).
Proof.
  intros Hout Hrow Hp.
  unfold dl_app_submitted, bind, model_predict, getitem.
  fold (single_frame input). rewrite Hout, Hrow. unfold ret at 1.
  rewrite Hp. unfold ret. fold (prediction_of p). eauto.
Qed.

Lemma data_list_loop (patients : list PredictionInput) :
  fold_left (fun data_list patient => (data_list ++ [row_dict patient])%list)
    patients []
  = map row_dict patients.
Proof. by rewrite (fold_left_snoc_map row_dict). Qed.

Lemma size_gate_passes (patients : list PredictionInput) :
  (length patients <= 100)%nat -> (100 <? len patients) = false.
Proof. intros H. unfold len. apply Z.ltb_ge. lia. Qed.

Lemma size_gate_fails (patients : list PredictionInput) :
  (100 < length patients)%nat -> (100 <? len patients) = true.
Proof. intros H. unfold len. apply Z.ltb_lt. lia. Qed.

Lemma truthy_nonempty {A} (l : list A) : l <> [] -> truthy l = true.
Proof. by destruct l. Qed.

Lemma predict_batch_empty model log :
  predict_batch model [] log = (Raises EmptyBatchError, log).
Proof. reflexivity. Qed.

Lemma predict_batch_too_large model patients log :
  (100 < length patients)%nat ->
  predict_batch model patients log = (Raises BatchTooLargeError, log).
Proof.
  intros Hlen.
  assert (patients <> []) as Hne by (intros ->; simpl in Hlen; lia).
  unfold predict_batch, try_except, bind, raise_if.
  rewrite (truthy_nonempty _ Hne), (size_gate_fails _ Hlen). reflexivity.
Qed.

Lemma predict_batch_returns model patients out log :
  patients <> [] ->
  (length patients <= 100)%nat ->
  predict model (batch_frame patients) = Returns out ->
  predict_batch model patients log
  = (Returns {| total_patients := len patients;
                predictions :=
                  imap (fun i p => entry_of (Z.of_nat i) p) (flatten out) |},
     (log ++ [batch_frame patients])%list).
Proof.
  intros Hne Hlen Hout.
  unfold predict_batch, try_except, bind, raise_if, model_predict.
  rewrite (truthy_nonempty _ Hne), (size_gate_passes _ Hlen).
  cbn [negb ret]. rewrite data_list_loop. fold (batch_frame patients).
  rewrite Hout. unfold ret. by rewrite batch_loop.
Qed.

Lemma predict_batch_model_raises model patients e log :
  patients <> [] ->
  (length patients <= 100)%nat ->
  predict model (batch_frame patients) = Raises e ->
  predict_batch model patients log
  = (if isinstance e ValueError
     then Raises (HTTPException 400 (str e))
     else if isinstance e Exception
          then Raises (HTTPException 500
                        (String.append "Batch prediction error: " (str e)))
          else Raises e,
     (log ++ [batch_frame patients])%list).
Proof.
  intros Hne Hlen Hout.
  unfold predict_batch, try_except, bind, raise_if, model_predict.
  rewrite (truthy_nonempty _ Hne), (size_gate_passes _ Hlen).
  cbn [negb ret]. rewrite data_list_loop. fold (batch_frame patients).
  rewrite Hout. cbn [find_clause].
  by destruct (isinstance e ValueError), (isinstance e Exception).
Qed.

Lemma predict_diabetes_model_raises_any model input e log :
  predict model (single_frame input) = Raises e ->
  predict_diabetes model input log
  = (if isinstance e Exception
     then Raises (HTTPException 500
                   (String.append "Prediction error: " (str e)))
     else Raises e,
     (log ++ [single_frame input])%list).
Proof.
  intros Hout.
  unfold predict_diabetes, try_except, bind, model_predict.
  fold (single_frame input). rewrite Hout. cbn [find_clause].
  by destruct (isinstance e Exception).
Qed.

Lemma constant_model_yields (p : Q) (input : PredictionInput) :
  model_yields (constant_model p) (single_frame input) p.
Proof. exists [[p]], [p]. by repeat split. Qed.

(** ** The label *)

Lemma prediction_of_gt (p : Q) : (1 # 2 < p)%Q -> prediction_of p = 1.
Proof.
  intros H. unfold prediction_of.
  by rewrite (proj2 (PyFacts.gt_true p (1 # 2)) H).
Qed.

Lemma prediction_of_le (p : Q) : (p <= 1 # 2)%Q -> prediction_of p = 0.
Proof.
  intros H. unfold prediction_of.
  by rewrite (proj2 (PyFacts.gt_false p (1 # 2)) H).
Qed.

(** C1.  Whenever the model answers a record with probability [p], the
    single-prediction handler returns label 1 if [p] is strictly greater
    than 0.5 and label 0 otherwise, so [p] exactly 0.5 gives label 0; the
    form handler of the UI derives the same label. *)
Theorem label_is_one_iff_above_half
    (model : Model) (input : PredictionInput) (p : Q) (log : Log) :
  model_yields model (single_frame input) p ->
  (exists out,
      predict_diabetes model input log
      = (Returns out, (log ++ [single_frame input])%list)
      /\ probability out = p
      /\ ((1 # 2 < p)%Q -> prediction out = 1)
      /\ ((p <= 1 # 2)%Q -> prediction out = 0)
      /\ ((p == 1 # 2)%Q -> prediction out = 0))
  /\ (exists res,
      dl_app_submitted model input log
      = (Returns res, (log ++ [single_frame input])%list)
      /\ ((1 # 2 < p)%Q -> form_prediction res = 1)
      /\ ((p <= 1 # 2)%Q -> form_prediction res = 0)).
Proof.
  intros (out & row0 & Hout & Hrow & Hp). split.
  - exists (result_of p). split.
    + by apply predict_diabetes_returns with out row0.
    + cbn [result_of probability prediction].
      repeat split.
      * apply prediction_of_gt.
      * apply prediction_of_le.
      * intros Heq. apply prediction_of_le. lra.
  - destruct (dl_app_submitted_returns model input out row0 p log Hout Hrow Hp)
      as [shown Hrun].
    eexists. split; [exact Hrun|]. cbn [form_prediction]. split.
    + apply prediction_of_gt.
    + apply prediction_of_le.
Qed.

Lemma label_is_one_iff_above_half_witness :
  model_yields (constant_model (1 # 2)) (single_frame example_input) (1 # 2)
  /\ exists out,
      predict_diabetes (constant_model (1 # 2)) example_input []
      = (Returns out, [single_frame example_input])
      /\ prediction out = 0.
Proof.
  split; [apply constant_model_yields|].
  destruct (label_is_one_iff_above_half (constant_model (1 # 2)) example_input
              (1 # 2) [] (constant_model_yields _ _))
    as [(out & Hrun & _ & _ & Hle & _) _].
  exists out. split; [exact Hrun|]. apply Hle. lra.
Defined.

(** ** The confidence tier *)

Lemma Py_max_Qmax (a b : Q) : (Py.max a b == Qmax a b)%Q.
Proof.
  unfold Py.max. destruct (Qlt_le_dec a b) as [Hlt|Hle].
  - symmetry. apply Q.max_r. lra.
  - symmetry. apply Q.max_l. lra.
Qed.

Lemma confidence_of_tier_rule (p : Q) :
  float32_tier_rule p (confidence_of p).
Proof.
  unfold float32_tier_rule, confidence_of, confidence_prob_of, Py.sub32.
  pose proof (Py_max_Qmax p (Float.float32 (1 - p))) as Hmax.
  set (c := Py.max p (Float.float32 (1 - p))) in *.
  set (m := Qmax p (Float.float32 (1 - p))) in *.
  repeat split.
  - intros H. assert (8 # 10 <= c)%Q as Hc by lra.
    by rewrite (proj2 (tier_of_confidence_prob_High c) Hc).
  - intros H. assert (6 # 10 <= c < 8 # 10)%Q as Hc by lra.
    by rewrite (proj2 (tier_of_confidence_prob_Medium c) Hc).
  - intros H. assert (c < 6 # 10)%Q as Hc by lra.
    by rewrite (proj2 (tier_of_confidence_prob_Low c) Hc).
Qed.

Lemma float32_tier_rule_exact (p : Q) (conf : string) :
  Float.is_float32 (1 - p) -> float32_tier_rule p conf -> tier_rule p conf.
Proof.
  unfold Float.is_float32, float32_tier_rule, tier_rule. intros Hexact.
  assert (Qmax p (Float.float32 (1 - p)) == Qmax p (1 - p))%Q as Hmax
    by (by rewrite Hexact).
  set (c := Qmax p (Float.float32 (1 - p))) in *.
  set (m := Qmax p (1 - p)) in *.
  intros (Hhigh & Hmedium & Hlow). repeat split; intros H.
  - apply Hhigh. lra.
  - apply Hmedium. lra.
  - apply Hlow. lra.
Qed.

(** C2, the claim as worded fails.  At the float32 number nearest to 0.4
    the exact [max(p, 1 - p)] is below 0.6, which the claim calls "Low";
    the code subtracts in float32, [1 - p] rounds up to the float32 number
    nearest to 0.6, and the confidence returned is "Medium". *)
Lemma confidence_at_float32_04_is_Medium_not_Low :
  Float.float32 (4 # 10) = 13421773 # 33554432
  /\ (Qmax (13421773 # 33554432) (1 - (13421773 # 33554432)) < 6 # 10)%Q
  /\ fst (predict_diabetes (constant_model (13421773 # 33554432))
            example_input [])
     = Returns {| prediction := 0;
                  probability := 13421773 # 33554432;
                  confidence := "Medium" |}
  /\ ~ tier_rule (13421773 # 33554432) "Medium".
Proof.
  split; [by vm_compute|]. split; [by vm_compute|].
  split; [by vm_compute|].
  intros (_ & _ & Hlow). discriminate Hlow. by vm_compute.
Qed.

(** C2, amended.  With [confidence_prob = max(p, 1 - p)] where [1 - p] is
    the float32 difference the code computes, the confidence returned is
    "High" if [confidence_prob >= 0.8], "Medium" if
    [0.6 <= confidence_prob < 0.8] and "Low" otherwise, in the single
    prediction and in every entry of a batch prediction; whenever the
    exact [1 - p] is itself a float32 number, this is the rule on the
    exact [max(p, 1 - p)]. *)
Theorem confidence_follows_float32_tier_rule :
  (forall (model : Model) (input : PredictionInput) (p : Q) (log : Log),
      (0 <= p <= 1)%Q ->
      model_yields model (single_frame input) p ->
      exists out,
        fst (predict_diabetes model input log) = Returns out
        /\ probability out = p
        /\ float32_tier_rule p (confidence out)
        /\ (Float.is_float32 (1 - p) -> tier_rule p (confidence out)))
  /\ (forall (model : Model) (patients : list PredictionInput)
             (probas : list (list Q)) (log : Log),
      patients <> [] ->
      (length patients <= 100)%nat ->
      predict model (batch_frame patients) = Returns probas ->
      exists out,
        fst (predict_batch model patients log) = Returns out
        /\ forall (i : nat) (p : Q),
             (0 <= p <= 1)%Q ->
             concat probas !! i = Some p ->
             exists e,
               predictions out !! i = Some e
               /\ Entry.probability e = p
               /\ float32_tier_rule p (Entry.confidence e)
               /\ (Float.is_float32 (1 - p) ->
                   tier_rule p (Entry.confidence e))).
Proof.
  split.
  - intros model input p log _ (out & row0 & Hout & Hrow & Hp).
    exists (result_of p).
    rewrite (predict_diabetes_returns model input out row0 p log Hout Hrow Hp).
    split; [reflexivity|]. split; [reflexivity|].
    cbn [result_of confidence]. split; [apply confidence_of_tier_rule|].
    intros Hexact. apply float32_tier_rule_exact; [exact Hexact|].
    apply confidence_of_tier_rule.
  - intros model patients probas log Hne Hlen Hout.
    eexists. rewrite (predict_batch_returns _ _ _ log Hne Hlen Hout).
    split; [reflexivity|].
    intros i p _ Hi. exists (entry_of (Z.of_nat i) p).
    cbn [predictions]. unfold flatten. rewrite list_lookup_imap, Hi.
    split; [reflexivity|]. split; [reflexivity|].
    cbn [entry_of Entry.confidence]. split; [apply confidence_of_tier_rule|].
    intros Hexact. apply float32_tier_rule_exact; [exact Hexact|].
    apply confidence_of_tier_rule.
Qed.

Lemma confidence_follows_float32_tier_rule_witness :
  ((0 <= 7 # 8 <= 1)%Q
   /\ model_yields (constant_model (7 # 8)) (single_frame example_input) (7 # 8)
   /\ exists out,
       fst (predict_diabetes (constant_model (7 # 8)) example_input [])
       = Returns out
       /\ confidence out = "High")
  /\ ([example_input; example_input] <> []
      /\ (length [example_input; example_input] <= 100)%nat
      /\ exists out e,
          fst (predict_batch (constant_model (7 # 16))
                 [example_input; example_input] [])
          = Returns out
          /\ predictions out !! 1%nat = Some e
          /\ Entry.confidence e = "Low").
Proof.
  split.
  - split; [lra|]. split; [apply constant_model_yields|].
    destruct (proj1 confidence_follows_float32_tier_rule (constant_model (7 # 8))
                example_input (7 # 8) [] ltac:(lra)
                (constant_model_yields _ _))
      as (out & Hrun & _ & (Hhigh & _) & _).
    exists out. split; [exact Hrun|]. apply Hhigh.
    apply Qle_trans with (7 # 8); [lra | apply Q.le_max_l].
  - split; [discriminate|]. split; [simpl; lia|].
    destruct (proj2 confidence_follows_float32_tier_rule
                (constant_model (7 # 16))
                [example_input; example_input]
                [[7 # 16]; [7 # 16]] []
                ltac:(discriminate) ltac:(simpl; lia) eq_refl)
      as (out & Hrun & Hrows).
    destruct (Hrows 1%nat (7 # 16) ltac:(lra) eq_refl)
      as (e & He & _ & (_ & _ & Hlow) & _).
    exists out, e. split; [exact Hrun|]. split; [exact He|]. apply Hlow.
    apply Q.max_lub_lt; [lra | by vm_compute].
Defined.

(** ** Monotonicity and the two boundaries *)

Lemma tier_of_confidence_prob_mono (c1 c2 : Q) :
  (c1 <= c2)%Q ->
  tier_le (tier_of_confidence_prob c1) (tier_of_confidence_prob c2).
Proof.
  intros Hle. unfold tier_le.
  destruct (tier_of_confidence_prob c1) eqn:E1;
    destruct (tier_of_confidence_prob c2) eqn:E2; simpl; try lia; exfalso.
  - apply tier_of_confidence_prob_Medium in E1.
    apply tier_of_confidence_prob_Low in E2. lra.
  - apply tier_of_confidence_prob_High in E1.
    apply tier_of_confidence_prob_Low in E2. lra.
  - apply tier_of_confidence_prob_High in E1.
    apply tier_of_confidence_prob_Medium in E2. lra.
Qed.

(** C7, the claim as worded fails: 0.8 is not a Low/Medium boundary.
    Coming from 0.79 the tier is already Medium, and at 0.8 it is High. *)
Lemma boundary_at_080_is_not_low_medium :
  tier_of_confidence_prob (79 # 100) = Medium
  /\ tier_of_confidence_prob (80 # 100) = High
  /\ ~ (tier_of_confidence_prob (79 # 100) = Low
        /\ tier_of_confidence_prob (80 # 100) = Medium).
Proof.
  split; [reflexivity|]. split; [reflexivity|].
  intros [H _]. discriminate H.
Qed.

(** C7, amended.  The confidence of a prediction is the tier of
    [confidence_prob = max(p, 1 - p)], the value the code computes, with
    the float32 difference; the tier is monotonically
    non-decreasing in [confidence_prob] (Low < Medium < High); the
    Low/Medium boundary is at exactly 0.6 (0.59 gives Low, 0.60 gives
    Medium) and the Medium/High boundary is at exactly 0.8 (0.79 gives
    Medium, 0.80 gives High). *)
Theorem confidence_monotone_with_boundaries :
  (forall (model : Model) (input : PredictionInput) (p : Q) (log : Log),
      model_yields model (single_frame input) p ->
      exists out,
        fst (predict_diabetes model input log) = Returns out
        /\ confidence out
           = tier_str (tier_of_confidence_prob (Py.max p (Py.sub32 1 p))))
  /\ (forall c1 c2 : Q,
      (c1 <= c2)%Q ->
      tier_le (tier_of_confidence_prob c1) (tier_of_confidence_prob c2))
  /\ (forall c : Q, tier_of_confidence_prob c = Low <-> (c < 6 # 10)%Q)
  /\ (forall c : Q,
      tier_of_confidence_prob c = Medium <-> (6 # 10 <= c < 8 # 10)%Q)
  /\ (forall c : Q, tier_of_confidence_prob c = High <-> (8 # 10 <= c)%Q)
  /\ tier_of_confidence_prob (59 # 100) = Low
  /\ tier_of_confidence_prob (60 # 100) = Medium
  /\ tier_of_confidence_prob (79 # 100) = Medium
  /\ tier_of_confidence_prob (80 # 100) = High.
Proof.
  split.
  { intros model input p log (out & row0 & Hout & Hrow & Hp).
    exists (result_of p).
    by rewrite (predict_diabetes_returns model input out row0 p log Hout Hrow Hp). }
  split; [exact tier_of_confidence_prob_mono|].
  split; [exact tier_of_confidence_prob_Low|].
  split; [exact tier_of_confidence_prob_Medium|].
  split; [exact tier_of_confidence_prob_High|].
  by repeat split.
Qed.

Lemma confidence_monotone_with_boundaries_witness :
  ((59 # 100 <= 60 # 100)%Q
   /\ tier_le (tier_of_confidence_prob (59 # 100))
        (tier_of_confidence_prob (60 # 100)))
  /\ (model_yields (constant_model (21 # 100)) (single_frame example_input)
        (21 # 100)
      /\ exists out,
          fst (predict_diabetes (constant_model (21 # 100)) example_input [])
          = Returns out
          /\ confidence out = "Medium").
Proof.
  split.
  - split; [lra|].
    apply (proj1 (proj2 confidence_monotone_with_boundaries)). lra.
  - split; [apply constant_model_yields|].
    destruct (proj1 confidence_monotone_with_boundaries
                (constant_model (21 # 100)) example_input (21 # 100) []
                (constant_model_yields _ _))
      as (out & Hrun & Hconf).
    exists out. split; [exact Hrun|]. rewrite Hconf. reflexivity.
Defined.

(** ** Batch size *)

(** C4.  The batch operation fails with [EmptyBatchError] on the empty
    list and with [BatchTooLargeError] on more than 100 records, in both
    cases without invoking the model; on a list of 1 to 100 records it
    invokes the model once and, the model returning, succeeds.  So 100
    records succeed and 101 fail. *)
Theorem batch_size_is_gated (model : Model) :
  (forall log : Log, predict_batch model [] log = (Raises EmptyBatchError, log))
  /\ (forall (patients : list PredictionInput) (log : Log),
      (100 < length patients)%nat ->
      predict_batch model patients log = (Raises BatchTooLargeError, log))
  /\ (forall (patients : list PredictionInput) (probas : list (list Q))
             (log : Log),
      (1 <= length patients <= 100)%nat ->
      predict model (batch_frame patients) = Returns probas ->
      exists out,
        predict_batch model patients log
        = (Returns out, (log ++ [batch_frame patients])%list)
        /\ total_patients out = len patients)
  /\ (forall (patients : list PredictionInput) (log : Log),
      length patients = 101%nat ->
      predict_batch model patients log = (Raises BatchTooLargeError, log))
  /\ (forall (patients : list PredictionInput) (probas : list (list Q))
             (log : Log),
      length patients = 100%nat ->
      predict model (batch_frame patients) = Returns probas ->
      exists out,
        predict_batch model patients log
        = (Returns out, (log ++ [batch_frame patients])%list)).
Proof.
  assert (forall patients probas log,
             (1 <= length patients <= 100)%nat ->
             predict model (batch_frame patients) = Returns probas ->
             exists out,
               predict_batch model patients log
               = (Returns out, (log ++ [batch_frame patients])%list)
               /\ total_patients out = len patients) as Hok.
  { intros patients probas log [Hlo Hhi] Hout.
    assert (patients <> []) as Hne by (intros ->; simpl in Hlo; lia).
    eexists. rewrite (predict_batch_returns _ _ _ log Hne Hhi Hout).
    split; reflexivity. }
  split; [apply predict_batch_empty|].
  split; [intros; by apply predict_batch_too_large|].
  split; [exact Hok|].
  split.
  - intros patients log Hlen. apply predict_batch_too_large. lia.
  - intros patients probas log Hlen Hout.
    destruct (Hok patients probas log ltac:(lia) Hout) as (out & Hrun & _).
    by exists out.
Qed.

Lemma batch_size_is_gated_witness :
  ((100 < length (replicate 101 example_input))%nat
   /\ predict_batch (constant_model (7 # 10)) (replicate 101 example_input) []
      = (Raises BatchTooLargeError, []))
  /\ (length (replicate 100 example_input) = 100%nat
      /\ predict (constant_model (7 # 10))
           (batch_frame (replicate 100 example_input))
         = Returns (replicate 100 [7 # 10])
      /\ exists out,
          predict_batch (constant_model (7 # 10))
            (replicate 100 example_input) []
          = (Returns out, [batch_frame (replicate 100 example_input)])).
Proof.
  pose proof (batch_size_is_gated (constant_model (7 # 10)))
    as (_ & Hbig & _ & _ & H100).
  split.
  - split; [vm_compute; lia|]. apply Hbig. vm_compute. lia.
  - split; [reflexivity|]. split; [reflexivity|].
    apply (H100 (replicate 100 example_input) (replicate 100 [7 # 10]) []);
      reflexivity.
Defined.

(** ** Batch order and positional identifiers *)

Lemma flatten_column (ps : list Q) :
  flatten (map (fun p => [p]) ps) = ps.
Proof.
  unfold flatten. induction ps as [|p ps IH]; simpl; [reflexivity|].
  by rewrite IH.
Qed.

(** C5.  For a non-empty batch of at most 100 records which the model
    answers with a column of probabilities, one per row, the rows of the
    frame given to the model are the records in input order, the result
    has one entry per record, the entry at position [i] carries identifier
    [i + 1] and the probability the model returned for row [i], and its
    label and confidence are those the single-prediction handler returns
    for that probability. *)
Theorem batch_preserves_order_and_numbers_entries
    (model : Model) (patients : list PredictionInput)
    (column : list Q) (log : Log) :
  patients <> [] ->
  (length patients <= 100)%nat ->
  predict model (batch_frame patients) = Returns (map (fun p => [p]) column) ->
  length column = length patients ->
  exists out,
    predict_batch model patients log
    = (Returns out, (log ++ [batch_frame patients])%list)
    /\ (forall (i : nat) (patient : PredictionInput),
          patients !! i = Some patient ->
          values (batch_frame patients) !! i = Some (row_values patient))
    /\ total_patients out = len patients
    /\ length (predictions out) = length patients
    /\ (forall (i : nat) (patient : PredictionInput),
          patients !! i = Some patient ->
          exists (p : Q) (e : Entry.t),
            column !! i = Some p
            /\ predictions out !! i = Some e
            /\ Entry.patient_id e = Z.of_nat i + 1
            /\ Entry.probability e = p
            /\ forall (model1 : Model) (input1 : PredictionInput) (log1 : Log),
                 model_yields model1 (single_frame input1) p ->
                 fst (predict_diabetes model1 input1 log1)
                 = Returns {| prediction := Entry.prediction e;
                              probability := Entry.probability e;
                              confidence := Entry.confidence e |}).
Proof.
  intros Hne Hlen Hout Hshape.
  eexists. split; [by apply predict_batch_returns|].
  cbn [total_patients predictions]. rewrite flatten_column.
  split.
  { intros i patient Hi. unfold batch_frame, pd_DataFrame. cbn [values].
    by rewrite !list_lookup_fmap, Hi. }
  split; [reflexivity|].
  split; [by rewrite length_imap|].
  intros i patient Hi.
  destruct (lookup_lt_is_Some_2 column i) as [p Hp].
  { rewrite Hshape. by apply lookup_lt_Some with patient. }
  exists p, (entry_of (Z.of_nat i) p).
  split; [exact Hp|].
  split; [by rewrite list_lookup_imap, Hp|].
  split; [reflexivity|]. split; [reflexivity|].
  intros model1 input1 log1 (out1 & row0 & Hout1 & Hrow & Hp1).
  by rewrite (predict_diabetes_returns model1 input1 out1 row0 p log1).
Qed.

Lemma batch_preserves_order_and_numbers_entries_witness :
  [example_input; with_glucose 180 example_input] <> []
  /\ (length [example_input; with_glucose 180 example_input] <= 100)%nat
  /\ predict (mkModel (fun _ => Returns [[1 # 4]; [3 # 4]]))
       (batch_frame [example_input; with_glucose 180 example_input])
     = Returns (map (fun p => [p]) [1 # 4; 3 # 4])
  /\ length [1 # 4; 3 # 4]
     = length [example_input; with_glucose 180 example_input]
  /\ exists out e,
       predict_batch (mkModel (fun _ => Returns [[1 # 4]; [3 # 4]]))
         [example_input; with_glucose 180 example_input] []
       = (Returns out,
          [batch_frame [example_input; with_glucose 180 example_input]])
       /\ predictions out !! 1%nat = Some e
       /\ Entry.patient_id e = 2
       /\ Entry.probability e = 3 # 4.
Proof.
  split; [discriminate|]. split; [simpl; lia|].
  split; [reflexivity|]. split; [reflexivity|].
  destruct (batch_preserves_order_and_numbers_entries
              (mkModel (fun _ => Returns [[1 # 4]; [3 # 4]]))
              [example_input; with_glucose 180 example_input]
              [1 # 4; 3 # 4] []
              ltac:(discriminate) ltac:(simpl; lia) eq_refl eq_refl)
    as (out & Hrun & _ & _ & _ & Hrows).
  destruct (Hrows 1%nat (with_glucose 180 example_input) eq_refl)
    as (p & e & Hp & He & Hid & Hprob & _).
  exists out, e. split; [exact Hrun|]. split; [exact He|].
  split; [exact Hid|]. rewrite Hprob. by injection Hp as <-.
Defined.

(** ** Request validation *)

Lemma field_bounds_ordered (f : FieldInfo) :
  In f PredictionInput_fields -> (field_ge f <= field_le f)%Q.
Proof.
  intros H.
  each_field H; simpl; unfold Py.float_literal;
    first [lra | apply float64_mono; lra].
Qed.

Lemma check_field_in_range loc r f :
  in_range f r -> check_field loc r f = [].
Proof.
  intros [Hge Hle]. unfold check_field.
  rewrite (proj2 (PyFacts.ge_true _ _) Hge).
  by rewrite (proj2 (PyFacts.ge_true _ _) Hle).
Qed.

Lemma check_field_out_of_range loc r f :
  ~ in_range f r ->
  exists e, check_field loc r f = [e] /\ names_field e f
            /\ err_input e = field_get f r.
Proof.
  intros Hout. unfold check_field, names_field.
  destruct (Py.ge (field_get f r) (field_ge f)) eqn:Ege.
  - destruct (Py.ge (field_le f) (field_get f r)) eqn:Ele.
    + exfalso. apply Hout. split; by apply PyFacts.ge_true.
    + eexists. split; [reflexivity|]. cbn [err_loc err_input].
      by rewrite last_snoc.
  - eexists. split; [reflexivity|]. cbn [err_loc err_input].
    by rewrite last_snoc.
Qed.

Lemma check_field_sound loc r f e :
  In e (check_field loc r f) -> names_field e f /\ ~ in_range f r.
Proof.
  intros He. unfold check_field, names_field in *.
  destruct (Py.ge (field_get f r) (field_ge f)) eqn:Ege.
  - destruct (Py.ge (field_le f) (field_get f r)) eqn:Ele; [destruct He|].
    destruct He as [<-|[]]. cbn [err_loc]. rewrite last_snoc.
    split; [reflexivity|]. intros [_ Hle].
    apply PyFacts.ge_false in Ele. lra.
  - destruct He as [<-|[]]. cbn [err_loc]. rewrite last_snoc.
    split; [reflexivity|]. intros [Hge _].
    apply PyFacts.ge_false in Ege. lra.
Qed.

Lemma flat_map_nil {A B} (g : A -> list B) (l : list A) :
  flat_map g l = [] <-> (forall x, In x l -> g x = []).
Proof.
  induction l as [|a l IH]; simpl.
  - split; [intros _ x []|reflexivity].
  - split.
    + intros H. apply app_eq_nil in H as [Ha Hl].
      intros x [<-|Hx]; [exact Ha|]. by apply IH.
    + intros H. rewrite (H a (or_introl eq_refl)).
      simpl. apply IH. intros x Hx. apply H. by right.
Qed.

Lemma validate_record_accepts loc r :
  (forall f, In f PredictionInput_fields -> in_range f r) ->
  validate_record loc r = [].
Proof.
  intros H. unfold validate_record. apply flat_map_nil.
  intros f Hf. apply check_field_in_range. by apply H.
Qed.

Lemma validate_record_rejects loc r f :
  In f PredictionInput_fields ->
  ~ in_range f r ->
  exists e, In e (validate_record loc r) /\ names_field e f.
Proof.
  intros Hf Hout.
  destruct (check_field_out_of_range loc r f Hout) as (e & He & Hname & _).
  exists e. split; [|exact Hname].
  unfold validate_record. apply in_flat_map. exists f.
  split; [exact Hf|]. rewrite He. by left.
Qed.

Lemma validate_list_rejects loc rs i r f :
  rs !! i = Some r ->
  In f PredictionInput_fields ->
  ~ in_range f r ->
  exists e, In e (validate_list loc rs) /\ names_field e f.
Proof.
  intros Hi Hf Hout.
  destruct (validate_record_rejects (loc ++ [LocIndex (Z.of_nat i)]) r f Hf Hout)
    as (e & He & Hname).
  exists e. split; [|exact Hname].
  unfold validate_list. apply in_concat.
  exists (validate_record (loc ++ [LocIndex (Z.of_nat i)]) r).
  split; [|exact He]. apply list_elem_of_In.
  by apply (elem_of_lookup_imap_2
              (fun i r => validate_record (loc ++ [LocIndex (Z.of_nat i)]) r)).
Qed.








(** ** Failures of the model call *)

Lemma single_model_exception_is_server_error model input e log :
  validate_record [LocKey "body"] input = [] ->
  predict model (single_frame input) = Raises e ->
  isinstance e Exception = true ->
  app model (POST_predict input) log
  = (Returns (ErrorResponse 500 (String.append "Prediction error: " (str e))),
     (log ++ [single_frame input])%list).
Proof.
  intros Hvalid Hout Hcls. unfold app, respond. rewrite Hvalid.
  by rewrite (predict_diabetes_model_raises model input e log Hout Hcls).
Qed.

Lemma batch_model_exception_is_server_error model patients e log :
  patients <> [] ->
  (length patients <= 100)%nat ->
  predict model (batch_frame patients) = Raises e ->
  isinstance e Exception = true ->
  isinstance e ValueError = false ->
  predict_batch model patients log
  = (Raises (HTTPException 500
               (String.append "Batch prediction error: " (str e))),
     (log ++ [batch_frame patients])%list).
Proof.
  intros Hne Hlen Hout Hexc Hval.
  rewrite (predict_batch_model_raises model patients e log Hne Hlen Hout).
  by rewrite Hval, Hexc.
Qed.

Lemma batch_model_ValueError_is_client_error model patients e log :
  patients <> [] ->
  (length patients <= 100)%nat ->
  predict model (batch_frame patients) = Raises e ->
  isinstance e ValueError = true ->
  predict_batch model patients log
  = (Raises (HTTPException 400 (str e)), (log ++ [batch_frame patients])%list).
Proof.
  intros Hne Hlen Hout Hval.
  rewrite (predict_batch_model_raises model patients e log Hne Hlen Hout).
  by rewrite Hval.
Qed.

(** C6, the code at a failing input.  The model call raises [ValueError]
    for a batch of one valid record.  The batch handler catches it in its
    [except ValueError] clause and answers 400, a client error; the
    single-prediction handler answers 500 for the same failure. *)
Theorem model_ValueError_in_batch_is_answered_400 :
  app (failing_model shape_error) (POST_predict_batch [example_input]) []
  = (Returns (ErrorResponse 400
                "Input 0 of layer is incompatible with the layer"),
     [batch_frame [example_input]])
  /\ client_error (ErrorResponse 400
                     "Input 0 of layer is incompatible with the layer")
  /\ ~ server_error (ErrorResponse 400
                       "Input 0 of layer is incompatible with the layer")
  /\ app (failing_model shape_error) (POST_predict example_input) []
     = (Returns (ErrorResponse 500
                   "Prediction error: Input 0 of layer is incompatible with the layer"),
        [single_frame example_input]).
Proof.
  split; [reflexivity|].
  split; [unfold client_error; simpl; lia|].
  split; [unfold server_error; simpl; lia|].
  reflexivity.
Qed.

(** ** Process start *)

Lemma load_failure_is_fatal (load_model : string -> Result Model) :
  (forall e : Raised,
      load_model "deep_learning_model.keras" = Raises e ->
      isinstance e FileNotFoundError = true ->
      start load_model = Died ModelLoadError)
  /\ (forall e : Raised,
      load_model "deep_learning_model.keras" = Raises e ->
      exists e', start load_model = Died e'
                 /\ forall (req : Request) (log : Log),
                      serve (start load_model) req log = None)
  /\ (forall (req : Request) (log : Log) (res : Result Response * Log),
      serve (start load_model) req log = Some res ->
      exists model,
        load_model "deep_learning_model.keras" = Returns model
        /\ res = app model req log).
Proof.
  unfold start, api_module, try_except, keras_load.
  split; [|split].
  - intros e He Hcls. rewrite He. cbn [find_clause]. by rewrite Hcls.
  - intros e He. rewrite He. cbn [find_clause].
    destruct (isinstance e FileNotFoundError); eexists; by split.
  - intros req log res.
    destruct (load_model "deep_learning_model.keras") as [model|e] eqn:Hl.
    + cbn [serve]. intros [= <-]. by exists model.
    + cbn [find_clause].
      by destruct (isinstance e FileNotFoundError).
Qed.

(** C8, the code at a failing input.  The artifact is absent and the
    loader raises [ValueError], as it does for a missing [.keras] file.
    The module's [except FileNotFoundError] clause does not catch it: the
    process dies with the loader's own [ValueError], not with the
    [ModelLoadError] the clause would raise, which only a
    [FileNotFoundError] from the loader produces.  The process serves no
    request either way. *)
Theorem absent_artifact_dies_with_the_loaders_ValueError :
  no_artifact "deep_learning_model.keras"
  = Raises (PyError ValueError
              "File not found: filepath=deep_learning_model.keras. Please ensure the file is an accessible `.keras` zip file.")
  /\ start no_artifact
     = Died (PyError ValueError
               "File not found: filepath=deep_learning_model.keras. Please ensure the file is an accessible `.keras` zip file.")
  /\ start no_artifact <> Died ModelLoadError
  /\ (forall (req : Request) (log : Log),
        serve (start no_artifact) req log = None)
  /\ start raises_FileNotFoundError = Died ModelLoadError
  /\ (forall (req : Request) (log : Log),
        serve (start raises_FileNotFoundError) req log = None).
Proof.
  split; [reflexivity|]. split; [reflexivity|].
  split; [discriminate|]. split; [reflexivity|].
  split; reflexivity.
Qed.

(** ** Determinism *)

Lemma predict_diabetes_ignores_log model input log :
  fst (predict_diabetes model input log)
  = fst (predict_diabetes model input []).
Proof.
  unfold predict_diabetes, try_except, bind, model_predict, getitem, ret, raise.
  destruct (predict model (pd_DataFrame [row_dict input])) as [out|e].
  - destruct (out !! 0%nat) as [row0|]; [|reflexivity].
    destruct (row0 !! 0%nat) as [p|]; reflexivity.
  - cbn [find_clause]. by destruct (isinstance e Exception).
Qed.

(** C9.  With the model a fixed function, two calls of the single
    prediction handler on the same record return the same result (label,
    probability and confidence, or the same error), whatever happened
    before each call; in particular two calls made one after the other. *)
Theorem single_prediction_is_deterministic
    (model : Model) (input : PredictionInput) :
  (forall log1 log2 : Log,
      fst (predict_diabetes model input log1)
      = fst (predict_diabetes model input log2))
  /\ (forall log : Log,
      let first := predict_diabetes model input log in
      let second := predict_diabetes model input (snd first) in
      fst second = fst first).
Proof.
  split.
  - intros log1 log2.
    rewrite (predict_diabetes_ignores_log model input log1).
    by rewrite (predict_diabetes_ignores_log model input log2).
  - intros log first second. unfold second, first.
    rewrite (predict_diabetes_ignores_log model input log).
    by rewrite (predict_diabetes_ignores_log model input
                  (snd (predict_diabetes model input log))).
Qed.

(** ** Configuration *)

Example main_PORT_set :
  main {[ "PORT" := " 80_80 " ; "ENVIRONMENT" := "production" ]}
  = Returns (mkUvicornRun "api:app" "0.0.0.0" 8080 false).
Proof. vm_compute. reflexivity. Qed.

Lemma main_defaults (environ : gmap string string) :
  environ !! "PORT" = None ->
  environ !! "ENVIRONMENT" = None ->
  main environ
  = Returns {| run_app := "api:app"; host := "0.0.0.0";
               port := 8000; reload := true |}.
Proof.
  intros Hport Henv. unfold main, os_getenv. by rewrite Hport, Henv.
Qed.

(** C10, the claim as worded fails: with nothing set in the environment
    the service is started on port 8000 with reload enabled, not
    disabled. *)
Lemma reload_is_on_in_empty_environment :
  main ∅ = Returns {| run_app := "api:app"; host := "0.0.0.0";
                      port := 8000; reload := true |}
  /\ ~ (exists run, main ∅ = Returns run
                    /\ port run = 8000 /\ reload run = false).
Proof.
  assert (main ∅ = Returns {| run_app := "api:app"; host := "0.0.0.0";
                              port := 8000; reload := true |}) as Hmain
    by (apply main_defaults; apply lookup_empty).
  split; [exact Hmain|].
  intros (run & Hrun & _ & Hreload).
  rewrite Hmain in Hrun. injection Hrun as <-. discriminate Hreload.
Qed.

(** C10, amended.  The port and the reload toggle come from the process
    environment.  With [PORT] unset the port is 8000.  Reload is on unless
    [ENVIRONMENT] is set to something other than "development": with
    [ENVIRONMENT] unset it is on.  So in every environment where both
    variables are unset the service listens on port 8000 with reload
    enabled. *)
Theorem defaults_are_port_8000_and_reload_on (environ : gmap string string) :
  (environ !! "PORT" = None ->
   exists run, main environ = Returns run /\ port run = 8000)
  /\ (forall run : UvicornRun,
      main environ = Returns run ->
      (reload run = false
       <-> exists v, environ !! "ENVIRONMENT" = Some v /\ v <> "development"))
  /\ (environ !! "PORT" = None ->
      environ !! "ENVIRONMENT" = None ->
      main environ
      = Returns {| run_app := "api:app"; host := "0.0.0.0";
                   port := 8000; reload := true |}).
Proof.
  split; [|split].
  - intros Hport. unfold main, os_getenv. rewrite Hport. cbn [py_int].
    eexists. split; reflexivity.
  - intros run. unfold main.
    destruct (py_int (os_getenv environ "PORT" (VInt 8000))) as [n|e];
      [|discriminate].
    intros [= <-]. cbn [reload]. unfold os_getenv.
    destruct (environ !! "ENVIRONMENT") as [v|]; cbn [py_eq_str].
    + rewrite bool_decide_eq_false. split.
      * intros Hv. by exists v.
      * by intros (v' & [= <-] & Hv).
    + rewrite bool_decide_eq_false. split.
      * intros Hv. by destruct Hv.
      * by intros (v' & Hv & _).
  - apply main_defaults.
Qed.

Lemma defaults_are_port_8000_and_reload_on_witness :
  ({[ "HOME" := "/root" ]} : gmap string string) !! "PORT" = None
  /\ ({[ "HOME" := "/root" ]} : gmap string string) !! "ENVIRONMENT" = None
  /\ main {[ "HOME" := "/root" ]}
     = Returns {| run_app := "api:app"; host := "0.0.0.0";
                  port := 8000; reload := true |}.
Proof.
  split; [reflexivity|]. split; [reflexivity|].
  apply (proj2 (proj2 (defaults_are_port_8000_and_reload_on
                         {[ "HOME" := "/root" ]}))); reflexivity.
Defined.


(** * Further properties of the handlers *)

(** ** Inversion: what a successful run tells *)

Lemma predict_diabetes_inv model input out log log' :
  predict_diabetes model input log = (Returns out, log') ->
  exists p,
    model_yields model (single_frame input) p
    /\ out = result_of p
    /\ log' = (log ++ [single_frame input])%list.
Proof.
  destruct (predict model (single_frame input)) as [arr|e] eqn:Harr.
  - destruct (arr !! 0%nat) as [row0|] eqn:Hrow.
    + destruct (row0 !! 0%nat) as [p|] eqn:Hp.
      * rewrite (predict_diabetes_returns model input arr row0 p log Harr Hrow Hp).
        intros [= <- <-]. exists p. split; [|by split].
        by exists arr, row0.
      * unfold predict_diabetes, try_except, bind, model_predict, getitem.
        fold (single_frame input). rewrite Harr, Hrow. unfold ret at 1.
        rewrite Hp. discriminate.
    + unfold predict_diabetes, try_except, bind, model_predict, getitem.
      fold (single_frame input). rewrite Harr, Hrow. discriminate.
  - rewrite (predict_diabetes_model_raises_any model input e log Harr).
    by destruct (isinstance e Exception).
Qed.

Lemma predict_batch_inv model patients out log log' :
  predict_batch model patients log = (Returns out, log') ->
  exists probas,
    patients <> []
    /\ (length patients <= 100)%nat
    /\ predict model (batch_frame patients) = Returns probas
    /\ out = {| total_patients := len patients;
                predictions :=
                  imap (fun i p => entry_of (Z.of_nat i) p) (flatten probas) |}
    /\ log' = (log ++ [batch_frame patients])%list.
Proof.
  destruct patients as [|r rs] eqn:Hps; [discriminate|]. rewrite <- Hps.
  assert (patients <> []) as Hne by (by rewrite Hps).
  destruct (Nat.le_gt_cases (length patients) 100) as [Hlen|Hlen].
  - destruct (predict model (batch_frame patients)) as [probas|e] eqn:Hout.
    + rewrite (predict_batch_returns model patients probas log Hne Hlen Hout).
      intros [= <- <-]. by exists probas.
    + rewrite (predict_batch_model_raises model patients e log Hne Hlen Hout).
      by destruct (isinstance e ValueError), (isinstance e Exception).
  - by rewrite (predict_batch_too_large model patients log Hlen).
Qed.

(** ** The tier in terms of the probability *)

Lemma Py_max_ge_iff (a b c : Q) :
  (c <= Py.max a b)%Q <-> (c <= a)%Q \/ (c <= b)%Q.
Proof.
  unfold Py.max. destruct (Qlt_le_dec a b) as [Hlt|Hle]; split.
  - by right.
  - intros [H|H]; lra.
  - by left.
  - intros [H|H]; lra.
Qed.

Lemma Py_max_lt_iff (a b c : Q) :
  (Py.max a b < c)%Q <-> (a < c)%Q /\ (b < c)%Q.
Proof.
  unfold Py.max. destruct (Qlt_le_dec a b) as [Hlt|Hle]; split.
  - intros H. split; lra.
  - by intros [_ H].
  - intros H. split; lra.
  - by intros [H _].
Qed.

Lemma tier_str_High (t : Tier) : tier_str t = "High" <-> t = High.
Proof. destruct t; split; intros H; try reflexivity; discriminate H. Qed.

Lemma tier_str_Medium (t : Tier) : tier_str t = "Medium" <-> t = Medium.
Proof. destruct t; split; intros H; try reflexivity; discriminate H. Qed.

Lemma tier_str_Low (t : Tier) : tier_str t = "Low" <-> t = Low.
Proof. destruct t; split; intros H; try reflexivity; discriminate H. Qed.

Lemma confidence_of_High (p : Q) :
  confidence_of p = "High"
  <-> (p < 6710887 # 33554432)%Q \/ (8 # 10 <= p)%Q.
Proof.
  unfold confidence_of, confidence_prob_of, Py.sub32.
  rewrite tier_str_High, tier_of_confidence_prob_High, Py_max_ge_iff.
  rewrite float32_ge_08.
  split; (intros [H|H]; [right + left | left + right]; lra).
Qed.

Lemma confidence_of_Low (p : Q) :
  confidence_of p = "Low" <-> (13421773 # 33554432 < p < 6 # 10)%Q.
Proof.
  unfold confidence_of, confidence_prob_of, Py.sub32.
  rewrite tier_str_Low, tier_of_confidence_prob_Low, Py_max_lt_iff.
  rewrite float32_lt_06.
  split; intros [H1 H2]; split; lra.
Qed.

Lemma confidence_of_cases (p : Q) :
  confidence_of p = "High" \/ confidence_of p = "Medium"
  \/ confidence_of p = "Low".
Proof.
  unfold confidence_of.
  destruct (tier_of_confidence_prob (confidence_prob_of p)); simpl; auto.
Qed.

Lemma confidence_of_Medium (p : Q) :
  confidence_of p = "Medium"
  <-> (6710887 # 33554432 <= p <= 13421773 # 33554432)%Q
      \/ (6 # 10 <= p < 8 # 10)%Q.
Proof.
  split.
  - intros Hm.
    assert (~ ((p < 6710887 # 33554432)%Q \/ (8 # 10 <= p)%Q)) as Hh.
    { intros H. apply confidence_of_High in H. rewrite Hm in H. discriminate. }
    assert (~ (13421773 # 33554432 < p < 6 # 10)%Q) as Hl.
    { intros H. apply confidence_of_Low in H. rewrite Hm in H. discriminate. }
    destruct (Qlt_le_dec p (6 # 10)) as [Hlt|Hge].
    + left. split.
      * apply Qnot_lt_le. intros H. apply Hh. by left.
      * apply Qnot_lt_le. intros H. apply Hl. by split.
    + right. split; [exact Hge|].
      apply Qnot_le_lt. intros H. apply Hh. by right.
  - intros Hb. destruct (confidence_of_cases p) as [H|[H|H]]; [|exact H|];
      exfalso.
    + apply confidence_of_High in H. destruct Hb, H; lra.
    + apply confidence_of_Low in H. destruct Hb; lra.
Qed.

(** X1.  In terms of the probability itself, with the float32
    subtraction the code performs, a successful single prediction is
    "High" exactly when [p >= 0.8] or [p < 6710887 / 2^25], "Low" exactly
    when [13421773 / 2^25 < p < 0.6], and "Medium" exactly in between.
    [13421773 / 2^25] is the float32 number nearest to 0.4, and the
    float32 number nearest to 0.2 is one float32 step below
    [6710887 / 2^25]: so 0.2 and 0.4, as float32 numbers, are "High" and
    "Medium". *)
Theorem confidence_bands_of_probability
    (model : Model) (input : PredictionInput) (out : PredictionOutput)
    (log log' : Log) :
  predict_diabetes model input log = (Returns out, log') ->
  (confidence out = "High"
   <-> (probability out < 6710887 # 33554432)%Q
       \/ (8 # 10 <= probability out)%Q)
  /\ (confidence out = "Medium"
      <-> (6710887 # 33554432 <= probability out <= 13421773 # 33554432)%Q
          \/ (6 # 10 <= probability out < 8 # 10)%Q)
  /\ (confidence out = "Low"
      <-> (13421773 # 33554432 < probability out < 6 # 10)%Q)
  /\ Float.float32 (4 # 10) = 13421773 # 33554432
  /\ (Float.float32 (2 # 10) + (1 # 67108864) == 6710887 # 33554432)%Q.
Proof.
  intros Hrun. apply predict_diabetes_inv in Hrun as (p & _ & -> & _).
  cbn [result_of confidence probability].
  split; [apply confidence_of_High|].
  split; [apply confidence_of_Medium|].
  split; [apply confidence_of_Low|].
  split; by vm_compute.
Qed.

Lemma confidence_bands_of_probability_witness :
  predict_diabetes (constant_model (13421773 # 67108864)) example_input []
  = (Returns (result_of (13421773 # 67108864)), [single_frame example_input])
  /\ confidence (result_of (13421773 # 67108864)) = "High".
Proof.
  split; [reflexivity|].
  apply (proj1 (confidence_bands_of_probability
                  (constant_model (13421773 # 67108864))
                  example_input (result_of (13421773 # 67108864)) []
                  [single_frame example_input] eq_refl)).
  left. cbn [result_of probability]. lra.
Defined.

(** ** Complementary probabilities *)

Lemma tier_of_confidence_prob_Qeq (c1 c2 : Q) :
  (c1 == c2)%Q -> tier_of_confidence_prob c1 = tier_of_confidence_prob c2.
Proof.
  intros Heq.
  pose proof (tier_of_confidence_prob_mono c1 c2 ltac:(lra)) as H12.
  pose proof (tier_of_confidence_prob_mono c2 c1 ltac:(lra)) as H21.
  unfold tier_le in *.
  destruct (tier_of_confidence_prob c1), (tier_of_confidence_prob c2);
    simpl in *; try reflexivity; lia.
Qed.

Lemma confidence_of_complement (p q : Q) :
  Float.is_float32 p -> Float.is_float32 q ->
  (q == 1 - p)%Q -> confidence_of q = confidence_of p.
Proof.
  unfold Float.is_float32. intros Hp Hq Hsum.
  unfold confidence_of, confidence_prob_of, Py.sub32. f_equal.
  apply tier_of_confidence_prob_Qeq.
  rewrite (float32_proper (1 - q) p) by lra.
  rewrite (float32_proper (1 - p) q) by lra.
  rewrite !Py_max_Qmax, Hp, Hq. apply Q.max_comm.
Qed.

Lemma prediction_of_cases (p : Q) :
  ((1 # 2 < p)%Q /\ prediction_of p = 1)
  \/ ((p <= 1 # 2)%Q /\ prediction_of p = 0).
Proof.
  destruct (Qlt_le_dec (1 # 2) p) as [Hlt|Hle].
  - left. split; [exact Hlt | by apply prediction_of_gt].
  - right. split; [exact Hle | by apply prediction_of_le].
Qed.

(** X2.  The confidence is symmetric about 0.5: two successful single
    predictions whose probabilities, float32 numbers as the model returns
    them, add up to exactly 1 carry the same confidence, and their labels
    are opposite unless both probabilities are 0.5, in which case both
    labels are 0. *)
Theorem complementary_probabilities_share_confidence
    (model1 model2 : Model) (input1 input2 : PredictionInput)
    (out1 out2 : PredictionOutput) (log1 log1' log2 log2' : Log) :
  predict_diabetes model1 input1 log1 = (Returns out1, log1') ->
  predict_diabetes model2 input2 log2 = (Returns out2, log2') ->
  Float.is_float32 (probability out1) ->
  Float.is_float32 (probability out2) ->
  (probability out1 + probability out2 == 1)%Q ->
  confidence out2 = confidence out1
  /\ (~ (probability out1 == 1 # 2)%Q -> prediction out1 + prediction out2 = 1)
  /\ ((probability out1 == 1 # 2)%Q ->
      prediction out1 = 0 /\ prediction out2 = 0).
Proof.
  intros H1 H2.
  apply predict_diabetes_inv in H1 as (p & _ & -> & _).
  apply predict_diabetes_inv in H2 as (q & _ & -> & _).
  cbn [result_of confidence probability prediction]. intros Hp Hq Hsum.
  split; [apply confidence_of_complement; [exact Hp | exact Hq | lra]|].
  destruct (prediction_of_cases p) as [[Hp' ->]|[Hp' ->]];
    destruct (prediction_of_cases q) as [[Hq' ->]|[Hq' ->]].
  - exfalso. lra.
  - split; [reflexivity|]. intros Heq. exfalso. lra.
  - split; [reflexivity|]. intros Heq. exfalso. lra.
  - split; [|by split]. intros Hne. exfalso. apply Hne. lra.
Qed.

Lemma complementary_probabilities_share_confidence_witness :
  predict_diabetes (constant_model (1 # 4)) example_input []
  = (Returns (result_of (1 # 4)), [single_frame example_input])
  /\ predict_diabetes (constant_model (3 # 4)) example_input []
     = (Returns (result_of (3 # 4)), [single_frame example_input])
  /\ Float.is_float32 (probability (result_of (1 # 4)))
  /\ Float.is_float32 (probability (result_of (3 # 4)))
  /\ (probability (result_of (1 # 4)) + probability (result_of (3 # 4)) == 1)%Q
  /\ confidence (result_of (3 # 4)) = confidence (result_of (1 # 4)).
Proof.
  split; [reflexivity|]. split; [reflexivity|].
  split; [by vm_compute|]. split; [by vm_compute|]. split; [reflexivity|].
  apply (complementary_probabilities_share_confidence
           (constant_model (1 # 4)) (constant_model (3 # 4))
           example_input example_input
           (result_of (1 # 4)) (result_of (3 # 4))
           [] [single_frame example_input] [] [single_frame example_input]
           eq_refl eq_refl); by vm_compute.
Defined.

(** ** Well-formed results *)

Lemma result_of_well_formed (p : Q) :
  (prediction_of p = 0 \/ prediction_of p = 1)
  /\ (prediction_of p = 1 <-> (1 # 2 < p)%Q).
Proof.
  destruct (prediction_of_cases p) as [[Hp Hl]|[Hp Hl]]; rewrite Hl.
  - split; [by right|]. by split.
  - split; [by left|]. split; [discriminate|]. intros H. exfalso. lra.
Qed.

(** X3.  Whatever numbers the model returns, also outside [[0,1]], a
    successful answer is well formed: the label is 0 or 1, it is 1 exactly
    when the reported probability exceeds 0.5, and the confidence is one
    of "High", "Medium", "Low"; the same holds for every entry of a
    successful batch answer, whose identifiers are positive. *)
Theorem successful_answers_are_well_formed (model : Model) :
  (forall (input : PredictionInput) (out : PredictionOutput) (log log' : Log),
      predict_diabetes model input log = (Returns out, log') ->
      (prediction out = 0 \/ prediction out = 1)
      /\ (prediction out = 1 <-> (1 # 2 < probability out)%Q)
      /\ (confidence out = "High" \/ confidence out = "Medium"
          \/ confidence out = "Low"))
  /\ (forall (patients : list PredictionInput) (out : BatchOutput)
             (log log' : Log) (i : nat) (e : Entry.t),
      predict_batch model patients log = (Returns out, log') ->
      predictions out !! i = Some e ->
      (Entry.prediction e = 0 \/ Entry.prediction e = 1)
      /\ (Entry.prediction e = 1 <-> (1 # 2 < Entry.probability e)%Q)
      /\ (Entry.confidence e = "High" \/ Entry.confidence e = "Medium"
          \/ Entry.confidence e = "Low")
      /\ 1 <= Entry.patient_id e).
Proof.
  split.
  - intros input out log log' Hrun.
    apply predict_diabetes_inv in Hrun as (p & _ & -> & _).
    cbn [result_of prediction probability confidence].
    destruct (result_of_well_formed p) as [H01 Hiff].
    split; [exact H01|]. split; [exact Hiff | apply confidence_of_cases].
  - intros patients out log log' i e Hrun He.
    apply predict_batch_inv in Hrun as (probas & _ & _ & _ & -> & _).
    cbn [predictions] in He. rewrite list_lookup_imap in He.
    destruct (flatten probas !! i) as [p|]; [|discriminate].
    injection He as <-.
    cbn [entry_of Entry.prediction Entry.probability Entry.confidence
           Entry.patient_id].
    destruct (result_of_well_formed p) as [H01 Hiff].
    split; [exact H01|]. split; [exact Hiff|].
    split; [apply confidence_of_cases | lia].
Qed.

Lemma successful_answers_are_well_formed_witness :
  predict_diabetes (constant_model (-3)) example_input []
  = (Returns (result_of (-3)), [single_frame example_input])
  /\ (prediction (result_of (-3)) = 0 \/ prediction (result_of (-3)) = 1).
Proof.
  split; [reflexivity|].
  apply (proj1 (successful_answers_are_well_formed (constant_model (-3)))
           example_input (result_of (-3)) [] [single_frame example_input]
           eq_refl).
Defined.

(** ** Batch against single *)

Lemma flatten_singletons {A} (score : A -> Q) (rows : list A) :
  flatten (map (fun row => [score row]) rows) = map score rows.
Proof.
  unfold flatten. induction rows as [|row rows IH]; simpl; [reflexivity|].
  by rewrite IH.
Qed.

Lemma batch_frame_row (patients : list PredictionInput) (i : nat)
    (patient : PredictionInput) :
  patients !! i = Some patient ->
  values (batch_frame patients) !! i = Some (row_values patient).
Proof.
  intros Hi. unfold batch_frame, pd_DataFrame. cbn [values].
  by rewrite !list_lookup_fmap, Hi.
Qed.

(** X4.  With a model that scores each row on its own, a batch answer
    agrees with the single answers: for a batch of 1 to 100 records the
    entry at position [i] has identifier [i + 1] and the label,
    probability and confidence that the single-prediction handler returns
    for the record at position [i]. *)
Theorem batch_entry_equals_single_answer
    (model : Model) (score : list Q -> Q)
    (patients : list PredictionInput) (log log1 : Log)
    (i : nat) (patient : PredictionInput) :
  row_wise model score ->
  patients <> [] ->
  (length patients <= 100)%nat ->
  patients !! i = Some patient ->
  exists (out : BatchOutput) (single : PredictionOutput),
    predict_batch model patients log
    = (Returns out, (log ++ [batch_frame patients])%list)
    /\ predict_diabetes model patient log1
       = (Returns single, (log1 ++ [single_frame patient])%list)
    /\ predictions out !! i
       = Some {| Entry.patient_id := Z.of_nat i + 1;
                 Entry.prediction := prediction single;
                 Entry.probability := probability single;
                 Entry.confidence := confidence single |}.
Proof.
  intros Hrow Hne Hlen Hi.
  exists {| total_patients := len patients;
            predictions :=
              imap (fun i p => entry_of (Z.of_nat i) p)
                (flatten (map (fun row => [score row])
                            (values (batch_frame patients)))) |},
    (result_of (score (row_values patient))).
  split; [apply predict_batch_returns; [exact Hne | exact Hlen | apply Hrow]|].
  split.
  - apply predict_diabetes_returns
      with (out := [[score (row_values patient)]])
           (row0 := [score (row_values patient)]); [|reflexivity..].
    rewrite (Hrow (single_frame patient)). reflexivity.
  - cbn [predictions]. rewrite list_lookup_imap, flatten_singletons.
    rewrite list_lookup_fmap, (batch_frame_row patients i patient Hi).
    reflexivity.
Qed.

Lemma batch_entry_equals_single_answer_witness :
  row_wise (per_row_model glucose_score) glucose_score
  /\ [example_input; with_glucose 180 example_input] <> []
  /\ (length [example_input; with_glucose 180 example_input] <= 100)%nat
  /\ [example_input; with_glucose 180 example_input] !! 1%nat
     = Some (with_glucose 180 example_input)
  /\ exists (out : BatchOutput) (single : PredictionOutput),
      fst (predict_batch (per_row_model glucose_score)
             [example_input; with_glucose 180 example_input] [])
      = Returns out
      /\ fst (predict_diabetes (per_row_model glucose_score)
                (with_glucose 180 example_input) [])
         = Returns single
      /\ predictions out !! 1%nat
         = Some {| Entry.patient_id := 2;
                   Entry.prediction := prediction single;
                   Entry.probability := probability single;
                   Entry.confidence := confidence single |}.
Proof.
  split; [by intros df|]. split; [discriminate|].
  split; [simpl; lia|]. split; [reflexivity|].
  destruct (batch_entry_equals_single_answer
              (per_row_model glucose_score) glucose_score
              [example_input; with_glucose 180 example_input] [] [] 1%nat
              (with_glucose 180 example_input)
              (fun df => eq_refl) ltac:(discriminate) ltac:(simpl; lia) eq_refl)
    as (out & single & Hb & Hs & He).
  exists out, single. rewrite Hb, Hs. by repeat split.
Defined.

(** X5.  A successful batch answer lists the model's output flattened in
    row-major order: the probabilities of the entries are exactly the
    numbers the model returned, the identifiers are 1, 2, 3, ... in that
    order, and [total_patients] is the number of records sent, whether or
    not the model returned that many numbers. *)
Theorem batch_answer_lists_model_output
    (model : Model) (patients : list PredictionInput) (out : BatchOutput)
    (log log' : Log) :
  predict_batch model patients log = (Returns out, log') ->
  exists probas : list (list Q),
    predict model (batch_frame patients) = Returns probas
    /\ map Entry.probability (predictions out) = concat probas
    /\ map Entry.patient_id (predictions out)
       = map (fun i => Z.of_nat i + 1) (seq 0 (length (concat probas)))
    /\ total_patients out = Z.of_nat (length patients).
Proof.
  intros Hrun.
  apply predict_batch_inv in Hrun as (probas & _ & _ & Hout & -> & _).
  exists probas. split; [exact Hout|]. cbn [predictions total_patients].
  unfold flatten. split; [|split; [|reflexivity]].
  - change (map Entry.probability) with (fmap (M:=list) Entry.probability).
    rewrite fmap_imap.
    etrans; [apply (imap_ext _ (fun _ p => p)); by intros|].
    induction (concat probas) as [|p ps IH]; [reflexivity|].
    cbn [imap]. f_equal. exact IH.
  - change (map Entry.patient_id) with (fmap (M:=list) Entry.patient_id).
    rewrite fmap_imap.
    etrans; [apply (imap_ext _ (fun j _ => Z.of_nat j + 1)); by intros|].
    apply (imap_seq_0 (concat probas) (fun j => Z.of_nat j + 1)).
Qed.

Lemma batch_answer_lists_model_output_witness :
  predict_batch (per_row_model glucose_score)
    [example_input; with_glucose 180 example_input] []
  = (Returns {| total_patients := 2;
                predictions :=
                  [entry_of 0 (117 / 200); entry_of 1 (180 / 200)] |},
     [batch_frame [example_input; with_glucose 180 example_input]])
  /\ map Entry.patient_id [entry_of 0 (117 / 200); entry_of 1 (180 / 200)]
     = [1; 2].
Proof.
  split; [reflexivity|].
  destruct (batch_answer_lists_model_output (per_row_model glucose_score)
              [example_input; with_glucose 180 example_input]
              {| total_patients := 2;
                 predictions :=
                   [entry_of 0 (117 / 200); entry_of 1 (180 / 200)] |}
              [] [batch_frame [example_input; with_glucose 180 example_input]]
              eq_refl)
    as (probas & Hprobas & _ & Hids & _).
  injection Hprobas as <-. exact Hids.
Defined.

(** X6.  When the model returns an empty array, the two handlers differ:
    the single-prediction handler fails on the index and answers with a
    500 error, while the batch handler succeeds with an empty list of
    predictions and [total_patients] still counting the records sent. *)
Theorem empty_model_output_splits_the_handlers
    (model : Model) (input : PredictionInput)
    (patients : list PredictionInput) (log : Log) :
  (forall df : DataFrame, predict model df = Returns []) ->
  patients <> [] ->
  (length patients <= 100)%nat ->
  (exists detail : string,
      predict_diabetes model input log
      = (Raises (HTTPException 500 detail),
         (log ++ [single_frame input])%list))
  /\ predict_batch model patients log
     = (Returns {| total_patients := len patients; predictions := [] |},
        (log ++ [batch_frame patients])%list).
Proof.
  intros Hempty Hne Hlen. split.
  - eexists. unfold predict_diabetes, try_except, bind, model_predict, getitem.
    fold (single_frame input). rewrite Hempty. reflexivity.
  - by rewrite (predict_batch_returns model patients [] log Hne Hlen (Hempty _)).
Qed.

Lemma empty_model_output_splits_the_handlers_witness :
  (forall df : DataFrame, predict (mkModel (fun _ => Returns [])) df = Returns [])
  /\ [example_input] <> []
  /\ (length [example_input] <= 100)%nat
  /\ predict_batch (mkModel (fun _ => Returns [])) [example_input] []
     = (Returns {| total_patients := 1; predictions := [] |},
        [batch_frame [example_input]]).
Proof.
  split; [reflexivity|]. split; [discriminate|]. split; [simpl; lia|].
  apply (proj2 (empty_model_output_splits_the_handlers
                  (mkModel (fun _ => Returns [])) example_input
                  [example_input] []
                  (fun df => eq_refl) ltac:(discriminate) ltac:(simpl; lia))).
Defined.

(** ** Validation in full *)

Lemma flat_map_filter {A B} (g : A -> list B) (keep : A -> bool)
    (h : A -> B) (l : list A) :
  (forall x, g x = if keep x then [h x] else []) ->
  flat_map g l = map h (List.filter keep l).
Proof.
  intros Hg. induction l as [|x l IH]; simpl; [reflexivity|].
  rewrite Hg, IH. by destruct (keep x).
Qed.

Lemma check_field_error_for loc r f :
  check_field loc r f
  = if negb (Py.ge (field_get f r) (field_ge f)
             && Py.ge (field_le f) (field_get f r))
    then [error_for loc r f] else [].
Proof.
  unfold check_field, error_for.
  by destruct (Py.ge (field_get f r) (field_ge f)),
    (Py.ge (field_le f) (field_get f r)).
Qed.

Lemma validate_record_errors loc r :
  validate_record loc r = map (error_for loc r) (out_of_range_fields r).
Proof.
  unfold validate_record, out_of_range_fields.
  apply flat_map_filter. intros f. apply check_field_error_for.
Qed.

Lemma out_of_range_fields_spec r f :
  In f (out_of_range_fields r)
  <-> In f PredictionInput_fields /\ ~ in_range f r.
Proof.
  unfold out_of_range_fields, in_range. rewrite filter_In.
  split; intros [Hf Hout]; (split; [exact Hf|]).
  - intros [Hge Hle].
    rewrite (proj2 (PyFacts.ge_true _ _) Hge) in Hout.
    by rewrite (proj2 (PyFacts.ge_true _ _) Hle) in Hout.
  - destruct (Py.ge (field_get f r) (field_ge f)) eqn:Ege; [|reflexivity].
    destruct (Py.ge (field_le f) (field_get f r)) eqn:Ele; [|reflexivity].
    exfalso. apply Hout. split; by apply PyFacts.ge_true.
Qed.

(** X7.  A record passes validation exactly when all eight fields lie in
    their closed intervals; otherwise the errors are one per offending
    field, in the order of the declarations, so at most eight. *)
Theorem validation_passes_iff_all_in_range
    (loc : list LocItem) (r : PredictionInput) :
  (validate_record loc r = []
   <-> forall f, In f PredictionInput_fields -> in_range f r)
  /\ map (fun e => last (err_loc e)) (validate_record loc r)
     = map (fun f => Some (LocKey (field_name f))) (out_of_range_fields r)
  /\ (forall f, In f (out_of_range_fields r)
                <-> In f PredictionInput_fields /\ ~ in_range f r)
  /\ (length (validate_record loc r) <= 8)%nat.
Proof.
  split; [|split; [|split]].
  - split; [|apply validate_record_accepts].
    intros Hnil f Hf.
    destruct (Qlt_le_dec (field_get f r) (field_ge f)) as [Hlo|Hlo];
      [|destruct (Qlt_le_dec (field_le f) (field_get f r)) as [Hhi|Hhi]].
    + destruct (validate_record_rejects loc r f Hf) as (e & He & _).
      { intros [Hge _]. lra. }
      rewrite Hnil in He. destruct He.
    + destruct (validate_record_rejects loc r f Hf) as (e & He & _).
      { intros [_ Hle]. lra. }
      rewrite Hnil in He. destruct He.
    + by split.
  - rewrite validate_record_errors, map_map. apply map_ext.
    intros f. unfold error_for.
    destruct (Py.ge (field_get f r) (field_ge f)); cbn [err_loc];
      by rewrite last_snoc.
  - apply out_of_range_fields_spec.
  - rewrite validate_record_errors, length_map.
    unfold out_of_range_fields.
    etrans; [apply filter_length_le|]. simpl. lia.
Qed.

Lemma validation_passes_iff_all_in_range_witness :
  (forall f, In f PredictionInput_fields -> in_range f example_input)
  /\ validate_record [LocKey "body"] example_input = [].
Proof.
  assert (forall f, In f PredictionInput_fields -> in_range f example_input)
    as Hall.
  { intros f Hf. each_field Hf; split; by vm_compute. }
  split; [exact Hall|].
  by apply (proj1 (validation_passes_iff_all_in_range
                     [LocKey "body"] example_input)).
Defined.

(** X8.  Every validation error says what was violated: it is located at
    the record's path followed by the field's name, carries the offending
    value, and is of type "greater_than_equal" with the minimum when the
    value is below it, of type "less_than_equal" with the maximum when the
    value is above it. *)
Theorem validation_errors_tell_field_bound_and_input
    (loc : list LocItem) (r : PredictionInput) (e : ErrorDetail) :
  In e (validate_record loc r) ->
  exists f,
    In f PredictionInput_fields
    /\ err_loc e = (loc ++ [LocKey (field_name f)])%list
    /\ err_input e = field_get f r
    /\ (((field_get f r < field_ge f)%Q
         /\ err_type e = "greater_than_equal" /\ err_bound e = field_ge f)
        \/ ((field_le f < field_get f r)%Q
            /\ err_type e = "less_than_equal" /\ err_bound e = field_le f)).
Proof.
  intros He. rewrite validate_record_errors in He.
  apply in_map_iff in He as (f & <- & Hf).
  apply out_of_range_fields_spec in Hf as [Hf Hout].
  exists f. split; [exact Hf|]. unfold error_for.
  destruct (Py.ge (field_get f r) (field_ge f)) eqn:Ege;
    cbn [err_loc err_input err_type err_bound].
  - split; [reflexivity|]. split; [reflexivity|]. right.
    split; [|by split].
    apply PyFacts.ge_true in Ege.
    destruct (Qlt_le_dec (field_le f) (field_get f r)) as [Hhi|Hhi];
      [exact Hhi|].
    exfalso. apply Hout. by split.
  - split; [reflexivity|]. split; [reflexivity|]. left.
    split; [|by split]. by apply PyFacts.ge_false.
Qed.

Lemma validation_errors_tell_field_bound_and_input_witness :
  In (mkErrorDetail "greater_than_equal" [LocKey "body"; LocKey "glucose"]
        44 43)
    (validate_record [LocKey "body"] (with_glucose 43 example_input))
  /\ exists f,
      In f PredictionInput_fields
      /\ [LocKey "body"; LocKey "glucose"]
         = ([LocKey "body"] ++ [LocKey (field_name f)])%list.
Proof.
  assert (In (mkErrorDetail "greater_than_equal"
                [LocKey "body"; LocKey "glucose"] 44 43)
            (validate_record [LocKey "body"] (with_glucose 43 example_input)))
    as Hin by (vm_compute; left; reflexivity).
  split; [exact Hin|].
  destruct (validation_errors_tell_field_bound_and_input
              [LocKey "body"] (with_glucose 43 example_input) _ Hin)
    as (f & Hf & Hloc & _).
  exists f. by split.
Defined.

(** ** Validation of a batch body *)

Lemma concat_nil_iff {A} (ls : list (list A)) :
  concat ls = [] <-> (forall l, In l ls -> l = []).
Proof.
  induction ls as [|l ls IH]; simpl.
  - split; [intros _ l []|reflexivity].
  - split.
    + intros H. apply app_eq_nil in H as [Hl Hls].
      intros l' [<-|Hl']; [exact Hl|]. by apply IH.
    + intros H. rewrite (H l (or_introl eq_refl)). simpl.
      apply IH. intros l' Hl'. apply H. by right.
Qed.

Lemma validate_list_elem loc rs e :
  In e (validate_list loc rs)
  <-> exists i r,
        rs !! i = Some r
        /\ In e (validate_record (loc ++ [LocIndex (Z.of_nat i)]) r).
Proof.
  unfold validate_list. rewrite in_concat. split.
  - intros (l & Hl & He). apply list_elem_of_In in Hl.
    apply (elem_of_lookup_imap
             (fun i r => validate_record (loc ++ [LocIndex (Z.of_nat i)]) r))
      in Hl as (i & r & -> & Hi).
    by exists i, r.
  - intros (i & r & Hi & He).
    exists (validate_record (loc ++ [LocIndex (Z.of_nat i)]) r).
    split; [|exact He]. apply list_elem_of_In.
    by apply (elem_of_lookup_imap_2
                (fun i r => validate_record (loc ++ [LocIndex (Z.of_nat i)]) r)).
Qed.

Lemma validate_list_accepts loc rs :
  (forall i r, rs !! i = Some r ->
               forall f, In f PredictionInput_fields -> in_range f r) ->
  validate_list loc rs = [].
Proof.
  intros Hall. destruct (validate_list loc rs) as [|e es] eqn:Hv;
    [reflexivity|].
  assert (In e (validate_list loc rs)) as He by (rewrite Hv; by left).
  apply validate_list_elem in He as (i & r & Hi & He).
  rewrite (validate_record_accepts _ r (Hall i r Hi)) in He. destruct He.
Qed.

(** X9.  A batch body passes validation exactly when every record in it
    does, and each error for a batch body points at the offending record
    and field: its location is the body's path, the 0-based position of
    the record, then the field's name. *)
Theorem batch_validation_locates_record_and_field
    (loc : list LocItem) (rs : list PredictionInput) :
  (validate_list loc rs = []
   <-> forall i r, rs !! i = Some r ->
                   forall f, In f PredictionInput_fields -> in_range f r)
  /\ (forall e, In e (validate_list loc rs) ->
        exists (i : nat) (r : PredictionInput) (f : FieldInfo),
          rs !! i = Some r
          /\ In f PredictionInput_fields
          /\ ~ in_range f r
          /\ err_loc e
             = (loc ++ [LocIndex (Z.of_nat i); LocKey (field_name f)])%list).
Proof.
  split.
  - split; [|apply validate_list_accepts].
    intros Hnil i r Hi f Hf.
    destruct (Qlt_le_dec (field_get f r) (field_ge f)) as [Hlo|Hlo];
      [|destruct (Qlt_le_dec (field_le f) (field_get f r)) as [Hhi|Hhi]].
    + destruct (validate_list_rejects loc rs i r f Hi Hf) as (e & He & _).
      { intros [Hge _]. lra. }
      rewrite Hnil in He. destruct He.
    + destruct (validate_list_rejects loc rs i r f Hi Hf) as (e & He & _).
      { intros [_ Hle]. lra. }
      rewrite Hnil in He. destruct He.
    + by split.
  - intros e He. apply validate_list_elem in He as (i & r & Hi & He).
    rewrite validate_record_errors in He.
    apply in_map_iff in He as (f & <- & Hf).
    apply out_of_range_fields_spec in Hf as [Hf Hout].
    exists i, r, f. split; [exact Hi|]. split; [exact Hf|].
    split; [exact Hout|]. unfold error_for.
    destruct (Py.ge (field_get f r) (field_ge f)); cbn [err_loc];
      by rewrite <- app_assoc.
Qed.

Lemma batch_validation_locates_record_and_field_witness :
  In (mkErrorDetail "greater_than_equal"
        [LocKey "body"; LocIndex 1; LocKey "glucose"] 44 43)
    (validate_list [LocKey "body"]
       [example_input; with_glucose 43 example_input])
  /\ exists (i : nat) (r : PredictionInput),
      [example_input; with_glucose 43 example_input] !! i = Some r
      /\ exists f, ~ in_range f r
                   /\ [LocKey "body"; LocIndex 1; LocKey "glucose"]
                      = ([LocKey "body"]
                           ++ [LocIndex (Z.of_nat i); LocKey (field_name f)])%list.
Proof.
  assert (In (mkErrorDetail "greater_than_equal"
                [LocKey "body"; LocIndex 1; LocKey "glucose"] 44 43)
            (validate_list [LocKey "body"]
               [example_input; with_glucose 43 example_input]))
    as Hin by (vm_compute; left; reflexivity).
  split; [exact Hin|].
  destruct (proj2 (batch_validation_locates_record_and_field [LocKey "body"]
                     [example_input; with_glucose 43 example_input]) _ Hin)
    as (i & r & f & Hi & _ & Hout & Hloc).
  exists i, r. split; [exact Hi|]. exists f. by split.
Defined.

Lemma mapM_lookup_None {A B} (f : A -> option B) (l : list A) (i : nat)
    (x : A) :
  l !! i = Some x -> f x = None -> mapM f l = None.
Proof.
  revert i. induction l as [|y l IH]; intros i Hi Hx; [discriminate|].
  destruct i as [|i]; simpl in Hi.
  - injection Hi as ->. cbn. by rewrite Hx.
  - cbn. destruct (f y); [|reflexivity]. cbn.
    by rewrite (IH i Hi Hx).
Qed.

(** X10.  On the batch endpoint decoding and validation come before the
    size checks.  A body whose numbers all decode to finite floats and
    lie in range is answered 400 with the fixed message when it is empty
    or longer than 100; a body whose numbers are finite but which
    contains an invalid record is answered 422, also when it is longer
    than 100; a body containing a number that decodes to an infinity is
    answered 500.  In none of these cases is the model invoked. *)
Theorem batch_body_is_validated_before_it_is_counted
    (model : Model) (written : list PredictionInput) (log : Log) :
  (forall body : list PredictionInput,
      mapM decode_record written = Some body ->
      (validate_list [LocKey "body"] body = [] ->
       (body = [] ->
        asgi model (POST_predict_batch written) log
        = (Returns (ErrorResponse 400 "Empty patient list"), log))
       /\ ((100 < length body)%nat ->
           asgi model (POST_predict_batch written) log
           = (Returns (ErrorResponse 400 "Maximum 100 patients per request"),
              log)))
      /\ (validate_list [LocKey "body"] body <> [] ->
          asgi model (POST_predict_batch written) log
          = (Returns (ValidationErrorResponse
                        (validate_list [LocKey "body"] body)), log)))
  /\ (forall (i : nat) (record : PredictionInput),
      written !! i = Some record ->
      decode_record record = None ->
      asgi model (POST_predict_batch written) log
      = (Returns (ErrorResponse 500 "Internal Server Error"), log)).
Proof.
  split.
  - intros body Hdec. unfold asgi, decode_request. rewrite Hdec.
    cbn [fmap option_fmap option_map]. split.
    + intros Hvalid. unfold app, respond. rewrite Hvalid. split.
      * intros ->. reflexivity.
      * intros Hlen. by rewrite (predict_batch_too_large model body log Hlen).
    + intros Hinvalid. unfold app.
      by destruct (validate_list [LocKey "body"] body).
  - intros i record Hi Hdec. unfold asgi, decode_request.
    by rewrite (mapM_lookup_None decode_record written i record Hi Hdec).
Qed.

Lemma batch_body_is_validated_before_it_is_counted_witness :
  (mapM decode_record (replicate 101 written_example)
   = Some (replicate 101 example_input)
   /\ validate_list [LocKey "body"] (replicate 101 example_input) = []
   /\ (100 < length (replicate 101 example_input))%nat
   /\ asgi (constant_model (1 # 2))
        (POST_predict_batch (replicate 101 written_example)) []
      = (Returns (ErrorResponse 400 "Maximum 100 patients per request"), []))
  /\ ((with_glucose (inject_Z (10 ^ 400)) written_example
         :: replicate 101 written_example) !! 0%nat
      = Some (with_glucose (inject_Z (10 ^ 400)) written_example)
      /\ decode_record (with_glucose (inject_Z (10 ^ 400)) written_example)
         = None
      /\ asgi (constant_model (1 # 2))
           (POST_predict_batch
              (with_glucose (inject_Z (10 ^ 400)) written_example
                 :: replicate 101 written_example)) []
         = (Returns (ErrorResponse 500 "Internal Server Error"), [])).
Proof.
  split.
  - split; [by vm_compute|]. split; [by vm_compute|].
    split; [vm_compute; lia|].
    apply (proj1 (proj1 (batch_body_is_validated_before_it_is_counted
                           (constant_model (1 # 2))
                           (replicate 101 written_example) [])
                    (replicate 101 example_input) ltac:(by vm_compute))
             ltac:(by vm_compute)).
    vm_compute. lia.
  - split; [reflexivity|]. split; [by vm_compute|].
    apply (proj2 (batch_body_is_validated_before_it_is_counted
                    (constant_model (1 # 2))
                    (with_glucose (inject_Z (10 ^ 400)) written_example
                       :: replicate 101 written_example) [])
             0%nat (with_glucose (inject_Z (10 ^ 400)) written_example)
             eq_refl).
    by vm_compute.
Defined.

(** ** The application as a whole *)

Lemma respond_log {A} (wrap : A -> Response) (handler : M A) (log : Log) :
  snd (respond wrap handler log) = snd (handler log).
Proof.
  unfold respond. by destruct (handler log) as [[a|[cls msg|code detail]] log'].
Qed.

Lemma isinstance_HTTPException_Exception code detail :
  isinstance (HTTPException code detail) Exception = true.
Proof. reflexivity. Qed.

Lemma predict_diabetes_outcomes model input log :
  (exists out,
      predict_diabetes model input log
      = (Returns out, (log ++ [single_frame input])%list))
  \/ (exists detail,
      predict_diabetes model input log
      = (Raises (HTTPException 500 detail), (log ++ [single_frame input])%list))
  \/ (exists cls msg,
      predict model (single_frame input) = Raises (PyError cls msg)
      /\ issubclass cls Exception = false
      /\ predict_diabetes model input log
         = (Raises (PyError cls msg), (log ++ [single_frame input])%list)).
Proof.
  destruct (predict model (single_frame input)) as [arr|e] eqn:Harr.
  - unfold predict_diabetes, try_except, bind, model_predict, getitem, ret,
      raise.
    fold (single_frame input). rewrite Harr.
    destruct (arr !! 0%nat) as [row0|]; [|right; left; by eexists].
    destruct (row0 !! 0%nat) as [p|]; [left | right; left]; by eexists.
  - rewrite (predict_diabetes_model_raises_any model input e log Harr).
    destruct (isinstance e Exception) eqn:Hcls; [right; left; by eexists|].
    right. right. destruct e as [cls msg|code detail]; [|discriminate Hcls].
    by exists cls, msg.
Qed.

Lemma predict_batch_outcomes model patients log :
  ((patients = [] \/ (100 < length patients)%nat)
   /\ exists detail,
       predict_batch model patients log
       = (Raises (HTTPException 400 detail), log))
  \/ ((1 <= length patients <= 100)%nat
      /\ ((exists out,
              predict_batch model patients log
              = (Returns out, (log ++ [batch_frame patients])%list))
          \/ (exists code detail,
              (code = 400 \/ code = 500)
              /\ predict_batch model patients log
                 = (Raises (HTTPException code detail),
                    (log ++ [batch_frame patients])%list))
          \/ (exists cls msg,
              predict model (batch_frame patients) = Raises (PyError cls msg)
              /\ issubclass cls Exception = false
              /\ predict_batch model patients log
                 = (Raises (PyError cls msg),
                    (log ++ [batch_frame patients])%list)))).
Proof.
  destruct patients as [|r rs] eqn:Hps.
  { left. split; [by left|]. by eexists. }
  rewrite <- Hps.
  assert (patients <> []) as Hne by (by rewrite Hps).
  assert (1 <= length patients)%nat as Hpos by (rewrite Hps; simpl; lia).
  destruct (Nat.le_gt_cases (length patients) 100) as [Hlen|Hlen].
  - right. split; [lia|].
    destruct (predict model (batch_frame patients)) as [probas|e] eqn:Hout.
    + left. eexists. by apply predict_batch_returns.
    + right.
      rewrite (predict_batch_model_raises model patients e log Hne Hlen Hout).
      destruct (isinstance e ValueError) eqn:Hval;
        [left; exists 400, (str e); split; [by left | reflexivity]|].
      destruct (isinstance e Exception) eqn:Hcls;
        [left; eexists 500, _; split; [by right | reflexivity]|].
      right. destruct e as [cls msg|code detail]; [|discriminate Hcls].
      by exists cls, msg.
  - left. split; [by right|]. eexists.
    by apply predict_batch_too_large.
Qed.

(** X11.  Whatever the request and the model, an answer of the
    application has status 200, 400, 422 or 500; status 400 is only ever
    given on the batch endpoint; the two GET endpoints always answer 200;
    and when no answer is produced, the model call raised something that
    is not an [Exception] (such as [KeyboardInterrupt]), which is passed
    on unchanged. *)
Theorem application_status_codes
    (model : Model) (req : Request) (log : Log) :
  (forall (r : Response) (log' : Log),
      app model req log = (Returns r, log') ->
      answered_status r
      /\ (status_code_of r = 400 -> exists body, req = POST_predict_batch body)
      /\ (req = GET_health \/ req = GET_model_info -> status_code_of r = 200))
  /\ (forall (e : Raised) (log' : Log),
      app model req log = (Raises e, log') ->
      isinstance e Exception = false
      /\ exists df, predict model df = Raises e).
Proof.
  unfold answered_status.
  destruct req as [|body|body|].
  - split; [|discriminate]. intros r log' [= <- <-]. simpl.
    split; [by left|]. split; [discriminate | reflexivity].
  - unfold app.
    destruct (validate_record [LocKey "body"] body) as [|e0 errs].
    + unfold respond.
      destruct (predict_diabetes_outcomes model body log)
        as [(out & ->)|[(detail & ->)|(cls & msg & Hraise & Hcls & ->)]].
      * split; [|discriminate]. intros r log' [= <- <-]. simpl.
        split; [by left|]. split; [discriminate | by intros [|]].
      * split; [|discriminate]. intros r log' [= <- <-]. simpl.
        split; [by right; right; right|].
        split; [discriminate | by intros [|]].
      * split; [discriminate|]. intros e log' [= <- <-].
        split; [exact Hcls | by eexists].
    + split; [|discriminate]. intros r log' [= <- <-]. simpl.
      split; [by right; right; left|].
      split; [discriminate | by intros [|]].
  - unfold app.
    destruct (validate_list [LocKey "body"] body) as [|e0 errs].
    + unfold respond.
      destruct (predict_batch_outcomes model body log)
        as [[_ (detail & ->)]
           |[_ [(out & ->)
               |[(code & detail & Hcode & ->)
                |(cls & msg & Hraise & Hcls & ->)]]]].
      * split; [|discriminate]. intros r log' [= <- <-]. simpl.
        split; [by right; left|]. split; [by eexists | by intros [|]].
      * split; [|discriminate]. intros r log' [= <- <-]. simpl.
        split; [by left|]. split; [by eexists | by intros [|]].
      * split; [|discriminate]. intros r log' [= <- <-]. simpl.
        split; [destruct Hcode as [->| ->]; auto|].
        split; [by eexists | by intros [|]].
      * split; [discriminate|]. intros e log' [= <- <-].
        split; [exact Hcls | by eexists].
    + split; [|discriminate]. intros r log' [= <- <-]. simpl.
      split; [by right; right; left|].
      split; [by eexists | by intros [|]].
  - split; [|discriminate]. intros r log' [= <- <-]. simpl.
    split; [by left|]. split; [discriminate | reflexivity].
Qed.

Lemma application_status_codes_witness :
  app (failing_model (PyError KeyboardInterrupt "")) (POST_predict example_input) []
  = (Raises (PyError KeyboardInterrupt ""), [single_frame example_input])
  /\ isinstance (PyError KeyboardInterrupt "") Exception = false.
Proof.
  split; [reflexivity|].
  apply (proj2 (application_status_codes
                  (failing_model (PyError KeyboardInterrupt ""))
                  (POST_predict example_input) [])
           (PyError KeyboardInterrupt "") [single_frame example_input] eq_refl).
Defined.

(** ** When the model is invoked *)

Lemma predict_diabetes_log model input log :
  snd (predict_diabetes model input log) = (log ++ [single_frame input])%list.
Proof.
  destruct (predict_diabetes_outcomes model input log)
    as [(out & ->)|[(detail & ->)|(cls & msg & _ & _ & ->)]]; reflexivity.
Qed.

(** X12.  A request invokes the model at most once and leaves the record
    of earlier invocations untouched.  The model is never invoked for the
    two GET endpoints, for a body that fails validation, or for a batch
    that is empty or longer than 100; it is invoked exactly once, on the
    frame of the body, for a valid single record and for a valid batch of
    1 to 100 records. *)
Theorem model_is_invoked_at_most_once_on_valid_input
    (model : Model) (req : Request) (log : Log) :
  match req with
  | GET_health | GET_model_info => snd (app model req log) = log
  | POST_predict body =>
      (validate_record [LocKey "body"] body = [] ->
       snd (app model req log) = (log ++ [single_frame body])%list)
      /\ (validate_record [LocKey "body"] body <> [] ->
          snd (app model req log) = log)
  | POST_predict_batch body =>
      (validate_list [LocKey "body"] body = [] ->
       (1 <= length body <= 100)%nat ->
       snd (app model req log) = (log ++ [batch_frame body])%list)
      /\ (validate_list [LocKey "body"] body <> []
          \/ body = [] \/ (100 < length body)%nat ->
          snd (app model req log) = log)
  end.
Proof.
  destruct req as [|body|body|]; [reflexivity| | |reflexivity].
  - unfold app. split.
    + intros ->. by rewrite respond_log, predict_diabetes_log.
    + intros Hbad. by destruct (validate_record [LocKey "body"] body).
  - unfold app. split.
    + intros -> Hlen. rewrite respond_log.
      destruct (predict_batch_outcomes model body log)
        as [[Hsize _]
           |[_ [(out & ->)
               |[(code & detail & _ & ->)|(cls & msg & _ & _ & ->)]]]];
        try reflexivity.
      exfalso. destruct Hsize as [->|Hbig]; simpl in *; lia.
    + intros Hbad.
      destruct (validate_list [LocKey "body"] body) as [|e0 errs] eqn:Hv;
        [|reflexivity].
      rewrite respond_log.
      destruct Hbad as [Hbad|[->|Hbig]]; [done|reflexivity|].
      by rewrite (predict_batch_too_large model body log Hbig).
Qed.

Lemma model_is_invoked_at_most_once_on_valid_input_witness :
  validate_record [LocKey "body"] example_input = []
  /\ snd (app (failing_model shape_error) (POST_predict example_input)
            [single_frame example_input])
     = [single_frame example_input; single_frame example_input].
Proof.
  split; [reflexivity|].
  apply (proj1 (model_is_invoked_at_most_once_on_valid_input
                  (failing_model shape_error) (POST_predict example_input)
                  [single_frame example_input])).
  reflexivity.
Defined.

(** ** The frames and the metadata *)

(** X13.  The frame a handler hands to the model has the eight columns
    Pregnancies, Glucose, BloodPressure, SkinThickness, Insulin, BMI,
    DiabetesPedigreeFunction, Age, and one row per record, in the order of
    the records, holding the record's eight values in that column order;
    this is so for the single handler, for the form handler and for a
    batch of 1 to 100 records. *)
Theorem frames_have_eight_columns_and_one_row_per_record
    (model : Model) (log : Log) :
  (forall input : PredictionInput,
      snd (predict_diabetes model input log)
      = (log ++ [ {| columns := feature_columns;
                     values := [row_values input] |} ])%list
      /\ snd (dl_app_submitted model input log)
         = (log ++ [ {| columns := feature_columns;
                        values := [row_values input] |} ])%list)
  /\ (forall patients : list PredictionInput,
      (1 <= length patients <= 100)%nat ->
      snd (predict_batch model patients log)
      = (log ++ [ {| columns := feature_columns;
                     values := map row_values patients |} ])%list
      /\ Forall (fun row => length row = length feature_columns)
           (map row_values patients)).
Proof.
  split.
  - intros input. split; [by rewrite predict_diabetes_log|].
    unfold dl_app_submitted, bind, model_predict, getitem, ret, raise.
    destruct (predict model (pd_DataFrame [row_dict input])) as [arr|e];
      [|reflexivity].
    destruct (arr !! 0%nat) as [row0|]; [|reflexivity].
    by destruct (row0 !! 0%nat).
  - intros patients Hlen. split.
    + assert (batch_frame patients
              = {| columns := feature_columns;
                   values := map row_values patients |}) as <-.
      { destruct patients as [|r rs]; [simpl in Hlen; lia|].
        unfold batch_frame, pd_DataFrame. f_equal.
        rewrite map_map. by apply map_ext. }
      destruct (predict_batch_outcomes model patients log)
        as [[Hsize _]
           |[_ [(out & ->)
               |[(code & detail & _ & ->)|(cls & msg & _ & _ & ->)]]]];
        try reflexivity.
      exfalso. destruct Hsize as [->|Hbig]; simpl in *; lia.
    + apply Forall_forall. intros row Hrow. apply list_elem_of_In in Hrow.
      apply in_map_iff in Hrow as (r & <- & _). reflexivity.
Qed.

Lemma frames_have_eight_columns_and_one_row_per_record_witness :
  (1 <= length [example_input; with_glucose 180 example_input] <= 100)%nat
  /\ snd (predict_batch (failing_model shape_error)
            [example_input; with_glucose 180 example_input] [])
     = [ {| columns := feature_columns;
            values := [row_values example_input;
                       row_values (with_glucose 180 example_input)] |} ].
Proof.
  split; [simpl; lia|].
  apply (proj2 (frames_have_eight_columns_and_one_row_per_record
                  (failing_model shape_error) [])
           [example_input; with_glucose 180 example_input]).
  simpl. lia.
Defined.

(** X14.  The metadata endpoint describes what the handlers do: it
    answers without invoking the model, its [input_features] are the
    column labels of the frames the handlers build, in the same order, and
    its [threshold] is the one the label is decided with, a successful
    prediction being labelled 1 exactly when its probability exceeds the
    advertised threshold. *)
Theorem model_info_agrees_with_the_handlers (model : Model) (log : Log) :
  exists info : ModelInfoBody,
    app model GET_model_info log = (Returns (ModelInfoResponse info), log)
    /\ (forall input : PredictionInput,
          columns (single_frame input) = input_features info)
    /\ (forall patients : list PredictionInput,
          patients <> [] ->
          columns (batch_frame patients) = input_features info)
    /\ (forall (input : PredictionInput) (out : PredictionOutput)
               (log1 log1' : Log),
          predict_diabetes model input log1 = (Returns out, log1') ->
          (prediction out = 1 <-> (threshold info < probability out)%Q)).
Proof.
  eexists. split; [reflexivity|]. cbn [input_features threshold].
  split; [reflexivity|]. split.
  - intros [|r rs] Hne; [done | reflexivity].
  - intros input out log1 log1' Hrun.
    apply predict_diabetes_inv in Hrun as (p & _ & -> & _).
    apply result_of_well_formed.
Qed.

Lemma model_info_agrees_with_the_handlers_witness :
  [example_input] <> []
  /\ exists info : ModelInfoBody,
      app (constant_model (7 # 10)) GET_model_info []
      = (Returns (ModelInfoResponse info), [])
      /\ columns (batch_frame [example_input]) = input_features info.
Proof.
  split; [discriminate|].
  destruct (model_info_agrees_with_the_handlers (constant_model (7 # 10)) [])
    as (info & Hrun & _ & Hcols & _).
  exists info. split; [exact Hrun|]. apply Hcols. discriminate.
Defined.

(** ** The form *)

Lemma dl_app_submitted_inv model input res log log' :
  dl_app_submitted model input log = (Returns res, log') ->
  exists p,
    model_yields model (single_frame input) p
    /\ res = {| form_prediction := prediction_of p;
                form_shown := if prediction_of p =? 1 then st_error p
                              else st_success (Py.sub32 1 p) |}.
Proof.
  unfold dl_app_submitted, bind, model_predict, getitem, ret, raise.
  fold (single_frame input).
  destruct (predict model (single_frame input)) as [arr|e] eqn:Harr;
    [|discriminate].
  destruct (arr !! 0%nat) as [row0|] eqn:Hrow; [|discriminate].
  destruct (row0 !! 0%nat) as [p|] eqn:Hp; [|discriminate].
  intros [= <- _]. exists p. split; [by exists arr, row0 | reflexivity].
Qed.

Lemma float32_half : (Float.float32 (1 # 2) == 1 # 2)%Q.
Proof. by vm_compute. Qed.

(** X15.  The form reports the likelier outcome with its own
    probability: when the model's probability [p] exceeds 0.5 it shows an
    error message with [p], otherwise a success message with the float32
    difference [1 - p]; the number shown is thus never below 0.5 and
    equals the maximum of [p] and that difference, and the form's label
    is the one the API returns for the same model and record. *)
Theorem form_shows_the_likelier_outcome
    (model : Model) (input : PredictionInput) (res : FormResult)
    (log log' : Log) :
  dl_app_submitted model input log = (Returns res, log') ->
  exists p,
    model_yields model (single_frame input) p
    /\ ((1 # 2 < p)%Q ->
        form_prediction res = 1 /\ form_shown res = st_error p)
    /\ ((p <= 1 # 2)%Q ->
        form_prediction res = 0
        /\ form_shown res = st_success (Float.float32 (1 - p)))
    /\ (1 # 2 <= shown_number (form_shown res))%Q
    /\ (shown_number (form_shown res) == Qmax p (Float.float32 (1 - p)))%Q
    /\ forall log1 : Log,
         exists out, fst (predict_diabetes model input log1) = Returns out
                     /\ prediction out = form_prediction res
                     /\ probability out = p.
Proof.
  intros Hrun. apply dl_app_submitted_inv in Hrun as (p & Hyields & ->).
  exists p. split; [exact Hyields|]. cbn [form_prediction form_shown].
  pose proof float32_half as Hhalf.
  destruct (prediction_of_cases p) as [[Hp Hl]|[Hp Hl]]; rewrite Hl;
    cbn [Z.eqb Pos.eqb shown_number]; unfold Py.sub32.
  - pose proof (float32_mono (1 - p) (1 # 2) ltac:(lra)) as Hm.
    split; [by intros _|]. split; [intros Hle; exfalso; lra|].
    split; [lra|]. split; [symmetry; apply Q.max_l; lra|].
    intros log1. destruct Hyields as (arr & row0 & Harr & Hrow & Hp0).
    exists (result_of p).
    rewrite (predict_diabetes_returns model input arr row0 p log1 Harr Hrow Hp0).
    by repeat split.
  - pose proof (float32_mono (1 # 2) (1 - p) ltac:(lra)) as Hm.
    split; [intros Hgt; exfalso; lra|]. split; [by intros _|].
    split; [lra|]. split; [symmetry; apply Q.max_r; lra|].
    intros log1. destruct Hyields as (arr & row0 & Harr & Hrow & Hp0).
    exists (result_of p).
    rewrite (predict_diabetes_returns model input arr row0 p log1 Harr Hrow Hp0).
    by repeat split.
Qed.

Lemma form_shows_the_likelier_outcome_witness :
  dl_app_submitted (constant_model (1 # 4)) example_input []
  = (Returns {| form_prediction := 0; form_shown := st_success (3 # 4) |},
     [single_frame example_input])
  /\ (1 # 2 <= shown_number (st_success (3 # 4)))%Q.
Proof.
  split; [by vm_compute|].
  destruct (form_shows_the_likelier_outcome (constant_model (1 # 4))
              example_input
              {| form_prediction := 0; form_shown := st_success (3 # 4) |}
              [] [single_frame example_input] ltac:(by vm_compute))
    as (p & _ & _ & _ & Hhalf & _).
  exact Hhalf.
Defined.

(** X16.  The form does not guard the model call: whatever the model
    raises leaves the form handler unchanged, whereas the API's single
    handler turns the same failure, when it is an [Exception], into a 500
    error whose detail is "Prediction error: " followed by the message. *)
Theorem form_passes_model_errors_on_unchanged
    (model : Model) (input : PredictionInput) (e : Raised) (log : Log) :
  predict model (single_frame input) = Raises e ->
  dl_app_submitted model input log
  = (Raises e, (log ++ [single_frame input])%list)
  /\ (isinstance e Exception = true ->
      predict_diabetes model input log
      = (Raises (HTTPException 500
                   (String.append "Prediction error: " (str e))),
         (log ++ [single_frame input])%list))
  /\ (isinstance e Exception = false ->
      predict_diabetes model input log
      = (Raises e, (log ++ [single_frame input])%list)).
Proof.
  intros Hraise. split; [|split].
  - unfold dl_app_submitted, bind, model_predict.
    fold (single_frame input). by rewrite Hraise.
  - by apply predict_diabetes_model_raises.
  - intros Hcls.
    rewrite (predict_diabetes_model_raises_any model input e log Hraise).
    by rewrite Hcls.
Qed.

Lemma form_passes_model_errors_on_unchanged_witness :
  predict (failing_model shape_error) (single_frame example_input)
  = Raises shape_error
  /\ dl_app_submitted (failing_model shape_error) example_input []
     = (Raises shape_error, [single_frame example_input]).
Proof.
  split; [reflexivity|].
  apply (proj1 (form_passes_model_errors_on_unchanged
                  (failing_model shape_error) example_input shape_error []
                  eq_refl)).
Defined.

(** ** The sliders and the schema *)

Lemma within_sliders_unfold (r : PredictionInput) :
  within_sliders r
  <-> ((0 <= pregnancies r <= 17)%Q
       /\ (44 <= glucose r <= 199)%Q
       /\ (24 <= blood_pressure r <= 122)%Q
       /\ (7 <= skin_thickness r <= 99)%Q
       /\ (14 <= insulin r <= 846)%Q
       /\ (Py.float_literal (182 # 10) <= bmi r
           <= Py.float_literal (671 # 10))%Q
       /\ (Py.float_literal (78 # 1000) <= diabetes_pedigree_function r
           <= Py.float_literal (242 # 100))%Q
       /\ (21 <= age r <= 81)%Q).
Proof.
  unfold within_sliders, dl_app_sliders, form_values.
  rewrite !Forall2_cons, Forall2_nil.
  cbn [slider_min slider_max]. tauto.
Qed.

Lemma all_in_range_unfold (r : PredictionInput) :
  (forall f, In f PredictionInput_fields -> in_range f r)
  <-> ((0 <= pregnancies r <= 17)%Q
       /\ (44 <= glucose r <= 199)%Q
       /\ (24 <= blood_pressure r <= 122)%Q
       /\ (7 <= skin_thickness r <= 99)%Q
       /\ (14 <= insulin r <= 846)%Q
       /\ (Py.float_literal (182 # 10) <= bmi r
           <= Py.float_literal (671 # 10))%Q
       /\ (Py.float_literal (78 # 1000) <= diabetes_pedigree_function r
           <= Py.float_literal (242 # 100))%Q
       /\ (21 <= age r <= 81)%Q).
Proof.
  split.
  - intros H. unfold PredictionInput_fields in H.
    repeat split;
      match goal with
      | |- (_ <= ?g r)%Q =>
          match type of H with
          | context [mkFieldInfo ?n ?lo ?hi g] =>
              apply (H (mkFieldInfo n lo hi g)); simpl; tauto
          end
      | |- (?g r <= _)%Q =>
          match type of H with
          | context [mkFieldInfo ?n ?lo ?hi g] =>
              apply (H (mkFieldInfo n lo hi g)); simpl; tauto
          end
      end.
  - intros H f Hf. unfold in_range. each_field Hf; simpl; tauto.
Qed.

Lemma validate_record_nil_iff loc r :
  validate_record loc r = []
  <-> forall f, In f PredictionInput_fields -> in_range f r.
Proof.
  split; [|apply validate_record_accepts].
  intros Hnil f Hf.
  destruct (Qlt_le_dec (field_get f r) (field_ge f)) as [Hlo|Hlo];
    [|destruct (Qlt_le_dec (field_le f) (field_get f r)) as [Hhi|Hhi]].
  - destruct (validate_record_rejects loc r f Hf) as (e & He & _).
    { intros [Hge _]. lra. }
    rewrite Hnil in He. destruct He.
  - destruct (validate_record_rejects loc r f Hf) as (e & He & _).
    { intros [_ Hle]. lra. }
    rewrite Hnil in He. destruct He.
  - by split.
Qed.

(** X17.  The form and the API agree on the ranges: the eight slider
    ranges are the eight intervals of the schema, field by field, so a
    record has every value within the range of its slider exactly when it
    passes the API's validation; and the sliders start at the schema's
    example record. *)
Theorem sliders_and_schema_accept_the_same_records :
  (forall (r : PredictionInput) (loc : list LocItem),
      within_sliders r <-> validate_record loc r = [])
  /\ map slider_min dl_app_sliders = map field_ge PredictionInput_fields
  /\ map slider_max dl_app_sliders = map field_le PredictionInput_fields
  /\ map slider_value dl_app_sliders = form_values example_input.
Proof.
  split; [|by repeat split].
  intros r loc.
  rewrite within_sliders_unfold, validate_record_nil_iff.
  symmetry. apply all_in_range_unfold.
Qed.

(** ** Model failures, in general *)

(** X18.  A failure of the model call that is an [Exception] is answered
    500 with the underlying message after a fixed prefix, the model
    having been invoked once: "Prediction error: " on the single endpoint
    for every such exception, and "Batch prediction error: " on the batch
    endpoint for every such exception that is not a [ValueError]. *)
Theorem model_failures_are_answered_500_with_message
    (model : Model) (e : Raised) (log : Log) :
  isinstance e Exception = true ->
  (forall input : PredictionInput,
      validate_record [LocKey "body"] input = [] ->
      predict model (single_frame input) = Raises e ->
      app model (POST_predict input) log
      = (Returns (ErrorResponse 500
                    (String.append "Prediction error: " (str e))),
         (log ++ [single_frame input])%list))
  /\ (forall patients : list PredictionInput,
      validate_list [LocKey "body"] patients = [] ->
      (1 <= length patients <= 100)%nat ->
      predict model (batch_frame patients) = Raises e ->
      isinstance e ValueError = false ->
      app model (POST_predict_batch patients) log
      = (Returns (ErrorResponse 500
                    (String.append "Batch prediction error: " (str e))),
         (log ++ [batch_frame patients])%list)).
Proof.
  intros Hcls. split.
  - intros input Hvalid Hraise.
    by apply single_model_exception_is_server_error.
  - intros patients Hvalid [Hlo Hhi] Hraise Hval.
    assert (patients <> []) as Hne by (intros ->; simpl in Hlo; lia).
    unfold app, respond. rewrite Hvalid.
    by rewrite (batch_model_exception_is_server_error
                  model patients e log Hne Hhi Hraise Hcls Hval).
Qed.

Lemma model_failures_are_answered_500_with_message_witness :
  isinstance (PyError RuntimeError "out of memory") Exception = true
  /\ validate_list [LocKey "body"] [example_input] = []
  /\ (1 <= length [example_input] <= 100)%nat
  /\ isinstance (PyError RuntimeError "out of memory") ValueError = false
  /\ app (failing_model (PyError RuntimeError "out of memory"))
       (POST_predict_batch [example_input]) []
     = (Returns (ErrorResponse 500 "Batch prediction error: out of memory"),
        [batch_frame [example_input]]).
Proof.
  split; [reflexivity|]. split; [reflexivity|]. split; [simpl; lia|].
  split; [reflexivity|].
  apply (proj2 (model_failures_are_answered_500_with_message
                  (failing_model (PyError RuntimeError "out of memory"))
                  (PyError RuntimeError "out of memory") [] eq_refl)
           [example_input] eq_refl ltac:(simpl; lia) eq_refl eq_refl).
Defined.

(** ** Loading, in general *)

(** X19.  Only [FileNotFoundError] is translated at start: when the
    artifact loads, the process serves with exactly the loaded model, and
    the form's module gets the same model; when loading raises anything
    that is not a [FileNotFoundError], the process dies with that very
    exception, as the form's module does. *)
Theorem other_load_failures_are_passed_on_unchanged
    (load_model : string -> Result Model) :
  (forall model : Model,
      load_model "deep_learning_model.keras" = Returns model ->
      start load_model = Serving model
      /\ (forall log, dl_app_module load_model log = (Returns model, log))
      /\ forall req log,
           serve (start load_model) req log = Some (app model req log))
  /\ (forall e : Raised,
      load_model "deep_learning_model.keras" = Raises e ->
      isinstance e FileNotFoundError = false ->
      start load_model = Died e
      /\ forall log, dl_app_module load_model log = (Raises e, log)).
Proof.
  unfold start, api_module, dl_app_module, try_except, keras_load.
  split.
  - intros model Hload. rewrite Hload. by repeat split.
  - intros e Hload Hcls. rewrite Hload. cbn [find_clause].
    by rewrite Hcls.
Qed.

Lemma other_load_failures_are_passed_on_unchanged_witness :
  (fun _ : string => @Raises Model (PyError OSError "Permission denied"))
    "deep_learning_model.keras"
  = Raises (PyError OSError "Permission denied")
  /\ isinstance (PyError OSError "Permission denied") FileNotFoundError = false
  /\ start (fun _ => Raises (PyError OSError "Permission denied"))
     = Died (PyError OSError "Permission denied").
Proof.
  split; [reflexivity|]. split; [reflexivity|].
  apply (proj2 (other_load_failures_are_passed_on_unchanged
                  (fun _ => Raises (PyError OSError "Permission denied")))
           (PyError OSError "Permission denied") eq_refl eq_refl).
Defined.

(** ** The environment *)




(** ** [ValueError] on the batch endpoint *)

(** X21.  On the batch endpoint every [ValueError] raised inside the
    handler is answered alike: when the model call itself raises a
    [ValueError], or an exception of a subclass of it, for a valid batch
    of 1 to 100 records, the answer is 400 with the exception's bare
    message as detail, the same shape as the answers to an empty or
    oversized batch, and the model has been invoked once. *)
Theorem batch_answers_every_ValueError_with_400
    (model : Model) (patients : list PredictionInput) (e : Raised)
    (log : Log) :
  validate_list [LocKey "body"] patients = [] ->
  (1 <= length patients <= 100)%nat ->
  predict model (batch_frame patients) = Raises e ->
  isinstance e ValueError = true ->
  app model (POST_predict_batch patients) log
  = (Returns (ErrorResponse 400 (str e)), (log ++ [batch_frame patients])%list)
  /\ client_error (ErrorResponse 400 (str e)).
Proof.
  intros Hvalid [Hlo Hhi] Hraise Hval.
  assert (patients <> []) as Hne by (intros ->; simpl in Hlo; lia).
  split; [|unfold client_error; simpl; lia].
  unfold app, respond. rewrite Hvalid.
  by rewrite (batch_model_ValueError_is_client_error
                model patients e log Hne Hhi Hraise Hval).
Qed.

Lemma batch_answers_every_ValueError_with_400_witness :
  validate_list [LocKey "body"] [example_input] = []
  /\ (1 <= length [example_input] <= 100)%nat
  /\ isinstance (PyError (Subclass "UnicodeError" ValueError) "bad text")
       ValueError = true
  /\ app (failing_model
            (PyError (Subclass "UnicodeError" ValueError) "bad text"))
       (POST_predict_batch [example_input]) []
     = (Returns (ErrorResponse 400 "bad text"), [batch_frame [example_input]]).
Proof.
  split; [reflexivity|]. split; [simpl; lia|]. split; [reflexivity|].
  apply (proj1 (batch_answers_every_ValueError_with_400
                  (failing_model
                     (PyError (Subclass "UnicodeError" ValueError) "bad text"))
                  [example_input]
                  (PyError (Subclass "UnicodeError" ValueError) "bad text") []
                  eq_refl ltac:(simpl; lia) eq_refl eq_refl)).
Defined.
